(** * rwxrob/web: the request helper [Req.Submit] of pkg/web.go

    A shallow embedding of [Req.Submit] and of the two error types of the
    package.  The function is sequential Go code with early returns that
    mutates its receiver and talks to the outside world (the logger, the
    HTTP client, the YAML and JSON codecs).  It is embedded in a small
    state monad whose state is the receiver together with the list of the
    calls made to the outside world, and whose computations either go on
    with a value or leave the function with Go's [return]. *)

From Stdlib Require Import ZArith String Ascii List Lia.
From stdpp Require Import base gmap strings pretty sorting.

Open Scope Z_scope.

(** ** Go standard library functions used by [Submit]

    These functions are not code of the package.  The pure ones are
    modelled after their documented behaviour; the ones that depend on the
    outside world are fields of [World] below. *)

Module strings.

(** [strings.Index(s, substr)]: the index of the first instance of
    [substr] in [s], or -1 if [substr] is not present in [s]. *)
Definition Index (s substr : string) : Z :=
  match String.index 0 substr s with
  | Some n => Z.of_nat n
  | None => -1
  end.

End strings.

Module strconv.

(** [strconv.Itoa(i)]: the decimal representation of [i]. *)
Definition Itoa (i : Z) : string := pretty i.

End strconv.

(** Go's builtin [len] on a string: its number of bytes. *)
Definition len (s : string) : Z := Z.of_nat (String.length s).

Module url.

(** [url.Values] is [map[string][]string]. *)
Abbreviation Values := (gmap string (list string)).

Definition is_alnum (c : ascii) : bool :=
  let n := N_of_ascii c in
  ((97 <=? n) && (n <=? 122) || (65 <=? n) && (n <=? 90)
   || (48 <=? n) && (n <=? 57))%N.

(** [shouldEscape(c, encodeQueryComponent)]: everything but the
    unreserved characters of RFC 3986 is escaped. *)
Definition shouldEscape (c : ascii) : bool :=
  if is_alnum c then false
  else if (Ascii.eqb c "-" || Ascii.eqb c "_" || Ascii.eqb c "."
           || Ascii.eqb c "~")%char then false
  else true.

Definition upperhex (n : N) : ascii :=
  (if n <? 10 then ascii_of_N (48 + n) else ascii_of_N (55 + n))%N.

(** [url.QueryEscape]: a space becomes [+], an escaped byte becomes
    [%XX] with upper-case hexadecimal digits. *)
Fixpoint QueryEscape (s : string) : string :=
  match s with
  | EmptyString => EmptyString
  | String c s' =>
      if Ascii.eqb c " "%char then String "+"%char (QueryEscape s')
      else if shouldEscape c then
        let n := N_of_ascii c in
        String "%"%char
          (String (upperhex (n / 16)) (String (upperhex (n mod 16))
             (QueryEscape s')))
      else String c (QueryEscape s')
  end.

(** The inner loop of [Values.Encode]: one [key=value] pair per value of
    the key, pairs separated by [&]. *)
Fixpoint encode_key (keyEscaped : string) (vs : list string)
    (buf : string) : string :=
  match vs with
  | [] => buf
  | v :: vs' =>
      let buf := if (0 <? len buf) then buf +:+ "&" else buf in
      encode_key keyEscaped vs' (buf +:+ keyEscaped +:+ "=" +:+ QueryEscape v)
  end.

(** The byte-wise order on strings used by [slices.Sort]. *)
Definition str_le (a b : string) : Prop := String.leb a b = true.

#[global] Instance str_le_dec : RelDecision str_le :=
  λ a b, decide (String.leb a b = true).

Definition sorted_keys (v : Values) : list string :=
  merge_sort str_le (map_to_list v).*1.

(** [Values.Encode]: the values in URL-encoded form, sorted by key.  A
    nil or empty map encodes to the empty string. *)
Definition Encode (v : Values) : string :=
  fold_left
    (λ buf k, encode_key (QueryEscape k) (default [] (v !! k)) buf)
    (sorted_keys v) "".

End url.

Module textproto.

(** [validHeaderFieldByte]: the bytes of a token of RFC 7230, that is the
    letters, the digits and the fifteen marks
    [! # $ % & ' * + - . ^ _ ` | ~]. *)
Definition validHeaderFieldByte (c : ascii) : bool :=
  url.is_alnum c ||
  existsb (N.eqb (N_of_ascii c))
    [33; 35; 36; 37; 38; 39; 42; 43; 45; 46; 94; 95; 96; 124; 126]%N.

Fixpoint valid (s : string) : bool :=
  match s with
  | EmptyString => true
  | String c s' => validHeaderFieldByte c && valid s'
  end.

Definition is_lower (c : ascii) : bool :=
  let n := N_of_ascii c in ((97 <=? n) && (n <=? 122))%N.

Definition is_upper (c : ascii) : bool :=
  let n := N_of_ascii c in ((65 <=? n) && (n <=? 90))%N.

(** The loop of [canonicalMIMEHeaderKey]: the first letter and every
    letter after a hyphen in upper case, the others in lower case. *)
Fixpoint canonicalMIMEHeaderKey (upper : bool) (a : string) : string :=
  match a with
  | EmptyString => EmptyString
  | String c a' =>
      let c :=
        if upper && is_lower c then ascii_of_N (N_of_ascii c - 32)
        else if negb upper && is_upper c then ascii_of_N (N_of_ascii c + 32)
        else c in
      String c (canonicalMIMEHeaderKey (Ascii.eqb c "-") a')
  end.

(** [textproto.CanonicalMIMEHeaderKey]: the canonical format of a header
    name; a name with a space or another byte that is not valid in a
    header name is returned as it is. *)
Definition CanonicalMIMEHeaderKey (s : string) : string :=
  if valid s then canonicalMIMEHeaderKey true s else s.

End textproto.

Module time.

(** [time.Duration] is an [int64] count of nanoseconds; its arithmetic
    wraps around. *)
Definition wrap (z : Z) : Z := (z + 2 ^ 63) mod 2 ^ 64 - 2 ^ 63.

(** The conversion [time.Duration(n)]. *)
Definition Duration (n : Z) : Z := wrap n.

Definition Second : Z := 1000000000.

(** The product of two durations. *)
Definition mul (a b : Z) : Z := wrap (a * b).

End time.

Module fmt.

(** What [fmt.Sprintf("%v", nil)] prints for the nil interface value. *)
Definition nil_verb_v : string := "<nil>".

End fmt.

(** ** Data model *)

#[local] Unset Elimination Schemes.

(** Generic decoded data: what a codec stores behind an [any]. *)
Inductive value :=
| VNull
| VBool (b : bool)
| VInt (i : Z)
| VString (s : string)
| VList (l : list value)
| VMap (m : list (string * value)).

#[local] Set Elimination Schemes.

(** The body stream of a response ([io.ReadCloser]): the bytes it delivers
    and the message of the error it ends with, if any. *)
Record ReadCloser := {
  content : string;
  failure : option string
}.

(** [http.Response], the fields [Submit] and its callers look at. *)
Record Response := {
  Status : string;
  StatusCode : Z;
  RespBody : ReadCloser
}.

(** Go's [error] values: the two error types of the package, and the
    errors of the other packages, told apart by their message. *)
Inductive error :=
| ReqSyntaxError (Message : string)
| HTTPError (Resp : Response)
| OtherError (msg : string).

(** The [Error] methods of lines 42 and 52. *)
Definition Error (e : error) : string :=
  match e with
  | ReqSyntaxError Message => Message
  | HTTPError Resp => Status Resp
  | OtherError msg => msg
  end.

(** [type Headers map[string]string]; [None] is the nil map. *)
Abbreviation HeaderMap := (option (gmap string string)).

(** The two results of a marshalling call, [([]byte, error)]. *)
Abbreviation Marshalled := (string * option error)%type.

(** A body value of a dynamic type other than [url.Values], [[]byte] and
    [string], seen through what the type switch of line 141 can observe:
    the interfaces its type implements and what the calls made on it
    give.  [yaml_Marshal] is [Some r] when the type implements
    [yaml.Marshaler], [r] being the results of [yaml.Marshal(v)]; likewise
    [json_Marshal] for [json.Marshaler] and [json.Marshal(v)],
    [MarshalText] for [encoding.TextMarshaler] and [v.MarshalText()],
    [Stringer] for [fmt.Stringer] and [v.String()].  [Sprintf_v] is
    [fmt.Sprintf("%v", v)]. *)
Record Dynamic := {
  yaml_Marshal : option Marshalled;
  json_Marshal : option Marshalled;
  MarshalText : option Marshalled;
  Stringer : option string;
  Sprintf_v : string
}.

(** The [Body] field, an [any]. *)
Inductive BodyAny :=
| BodyNil
| BodyValues (v : url.Values)
| BodyBytes (b : string)
| BodyString (s : string)
| BodyOther (d : Dynamic).

(** A destination of a dynamic type other than [map[string]any], [string]
    and [[]byte]: the interfaces and types the switch of line 215 tests,
    and the data the destination currently holds. *)
Record Target := {
  is_yaml_Unmarshaler : bool;
  is_io_Writer : bool;
  is_rwxjson_This : bool;
  holds : value
}.

(** The [Data] field, an [any]. *)
Inductive DataAny :=
| DataNil
| DataMap (m : list (string * value))
| DataString (s : string)
| DataBytes (b : string)
| DataOther (t : Target).

(** [context.Context], as far as [Submit] builds one: the background
    context, or one with a deadline [d] nanoseconds (a [time.Duration])
    after it is made. *)
Inductive Ctx :=
| Background
| WithTimeout (d : Z).

(** The [Resp] field, an [any]: nil, or a [*http.Response] (which is a nil
    pointer when [Client.Do] gave no response). *)
Inductive RespAny :=
| RespNil
| RespPtr (res : option Response).

Record Req := {
  Method : string;
  URL : string;
  Query : url.Values;
  Headers : HeaderMap;
  Body : BodyAny;
  Data : DataAny;
  Context : option Ctx;
  Resp : RespAny
}.

Definition set_Method (x : string) (r : Req) : Req :=
  {| Method := x; URL := URL r; Query := Query r; Headers := Headers r;
     Body := Body r; Data := Data r; Context := Context r; Resp := Resp r |}.

Definition set_URL (x : string) (r : Req) : Req :=
  {| Method := Method r; URL := x; Query := Query r; Headers := Headers r;
     Body := Body r; Data := Data r; Context := Context r; Resp := Resp r |}.

Definition set_Headers (x : HeaderMap) (r : Req) : Req :=
  {| Method := Method r; URL := URL r; Query := Query r; Headers := x;
     Body := Body r; Data := Data r; Context := Context r; Resp := Resp r |}.

Definition set_Data (x : DataAny) (r : Req) : Req :=
  {| Method := Method r; URL := URL r; Query := Query r; Headers := Headers r;
     Body := Body r; Data := x; Context := Context r; Resp := Resp r |}.

Definition set_Resp (x : RespAny) (r : Req) : Req :=
  {| Method := Method r; URL := URL r; Query := Query r; Headers := Headers r;
     Body := Body r; Data := Data r; Context := Context r; Resp := x |}.

(** [http.Request]: what [http.NewRequest] was given, the header fields
    added since (each value with the name it is stored under, in the order
    of the [Add] calls), and the context. *)
Record Request := {
  ReqMethod : string;
  ReqURL : string;
  ReqBody : string;
  Header : list (string * string);
  ReqCtx : Ctx
}.

(** [r.Header.Add(k, v)]: the value is appended to those stored under
    the canonical form of the name. *)
Definition Header_Add (k v : string) (r : Request) : Request :=
  {| ReqMethod := ReqMethod r; ReqURL := ReqURL r; ReqBody := ReqBody r;
     Header := Header r ++ [(textproto.CanonicalMIMEHeaderKey k, v)];
     ReqCtx := ReqCtx r |}.

(** The pair a header of the map is stored as on the request. *)
Definition stored (kv : string * string) : string * string :=
  (textproto.CanonicalMIMEHeaderKey kv.1, kv.2).

Definition WithContext (c : Ctx) (r : Request) : Request :=
  {| ReqMethod := ReqMethod r; ReqURL := ReqURL r; ReqBody := ReqBody r;
     Header := Header r; ReqCtx := c |}.

(** How a call of a library function ends: it returns, with an error or
    with nil, or it panics. *)
Inductive Outcome :=
| Gives (err : option error)
| Panics (msg : string).

(** ** The outside world

    The package globals [TimeOut] (an [int], of 64 bits) and [Client], and
    the library functions whose results [Submit] cannot compute: whether
    [http.NewRequest] accepts a method and a URL, what the client answers
    to a request, and what [yaml.Unmarshal] makes of bytes and a
    destination: the destination as it is after the call, and how the call
    ends (the codec panics on destinations it cannot write through, the
    nil destination among them). *)
Record World := {
  TimeOut : Z;
  NewRequest_err : string → string → option error;
  Client_Do : Request → option Response * option error;
  yaml_Unmarshal : string → DataAny → DataAny * Outcome
}.

(** [dur], line 189: [time.Second * time.Duration(TimeOut)]. *)
Definition dur (w : World) : Z :=
  time.Duration (time.mul time.Second (time.Duration (TimeOut w))).

(** The calls [Submit] makes to the outside world, as they happen. *)
Inductive Event :=
| EvLog (msg : string)
| EvNewRequest (method url body : string)
| EvDo (r : Request)
| EvReadAll (b : ReadCloser)
| EvUnmarshal (bytes : string) (dst : DataAny)
| EvCancel.

(** ** The monad of a Go function body

    The state is the receiver, the calls made so far, and the calls
    deferred until the function is left.  A computation goes on with a
    value ([Next]) or leaves the function ([Leave]): with the error it
    returns, with a run-time panic of one of its own statements
    ([Panicked]), or unwound by the panic of a library function it called
    ([Unwound]). *)

Record State := {
  req : Req;
  trace : list Event;
  deferred : list Event
}.

Inductive Exit :=
| Returned (err : option error)
| Panicked (msg : string)
| Unwound (msg : string).

Inductive Flow (A : Type) :=
| Next (a : A)
| Leave (x : Exit).
Arguments Next {A} a.
Arguments Leave {A} x.

Definition M (A : Type) : Type := State → Flow A * State.

Definition ret {A} (a : A) : M A := λ s, (Next a, s).

Definition bind {A B} (m : M A) (k : A → M B) : M B :=
  λ s, match m s with
       | (Next a, s') => k a s'
       | (Leave x, s') => (Leave x, s')
       end.

Notation "'let*' x ':=' m 'in' k" := (bind m (λ x, k))
  (at level 10, x name, m at level 100, k at level 200,
   format "'[v' 'let*'  x  ':='  m  'in'  '/' k ']'").
Notation "'do' m 'then' k" := (bind m (λ _, k))
  (at level 10, m at level 100, k at level 200,
   format "'[v' 'do'  m  'then'  '/' k ']'").

(** [return err] *)
Definition return_ {A} (err : option error) : M A :=
  λ s, (Leave (Returned err), s).

Definition panic {A} (msg : string) : M A :=
  λ s, (Leave (Panicked msg), s).

(** How the function is left by [return f(...)] when the call of [f] ends
    with [o]. *)
Definition ends (o : Outcome) : Exit :=
  match o with
  | Gives err => Returned err
  | Panics msg => Unwound msg
  end.

(** [return f(...)] *)
Definition return_call {A} (o : Outcome) : M A :=
  λ s, (Leave (ends o), s).

(** Reading the receiver, [*req]. *)
Definition get : M Req := λ s, (Next (req s), s).

(** Assigning to a field of the receiver. *)
Definition modify (f : Req → Req) : M unit :=
  λ s, (Next tt, {| req := f (req s); trace := trace s;
                    deferred := deferred s |}).

(** A call to the outside world. *)
Definition emit (e : Event) : M unit :=
  λ s, (Next tt, {| req := req s; trace := trace s ++ [e];
                    deferred := deferred s |}).

(** [defer f()] *)
Definition defer (e : Event) : M unit :=
  λ s, (Next tt, {| req := req s; trace := trace s;
                    deferred := e :: deferred s |}).

(** [if c { ... }] *)
Definition when (c : bool) (m : M unit) : M unit :=
  if c then m else ret tt.

(** What a call of the function amounts to: the receiver afterwards, how
    the function was left, and all the calls made, those deferred
    included. *)
Record Result := {
  final : Req;
  exit : Exit;
  events : list Event
}.

(** The state in which a call starts. *)
Definition init (r : Req) : State :=
  {| req := r; trace := []; deferred := [] |}.

Definition run (m : M unit) (r : Req) : Result :=
  match m (init r) with
  | (f, s) =>
      {| final := req s;
         exit := match f with Next _ => Returned None | Leave x => x end;
         events := trace s ++ deferred s |}
  end.

(** ** [Req.Submit], lines 123 to 235 *)

(** [req.Headers[k] = v] *)
Definition set_header (k v : string) : M unit :=
  let* r := get in
  match Headers r with
  | Some h => modify (set_Headers (Some (<[k:=v]> h)))
  | None => panic "assignment to entry in nil map"
  end.

(** [log.Println(msg)] *)
Definition log_Println (msg : string) : M unit := emit (EvLog msg).

(** A marshalling call followed by [if err != nil { return err }] and
    [buf = string(byt)]. *)
Definition marshalled (r : Marshalled) : M string :=
  match r with
  | (_, Some err) => return_ (Some err)
  | (byt, None) => ret byt
  end.

(** The type switch on [req.Body], lines 141 to 172; its value is [buf]. *)
Definition bodySwitch (v : BodyAny) : M string :=
  match v with
  | BodyValues v =>
      do set_header "Content-Type" "application/x-www-form-urlencoded" then
      ret (url.Encode v)
  | BodyBytes _ =>
      do log_Println "planned, but unimplemented, would uuencode" then
      ret ""
  | BodyString v => ret v
  | BodyOther d =>
      match yaml_Marshal d, json_Marshal d, MarshalText d, Stringer d with
      | Some r, _, _, _ => marshalled r
      | None, Some r, _, _ => marshalled r
      | None, None, Some r, _ => marshalled r
      | None, None, None, Some str => ret str
      | None, None, None, None => ret (Sprintf_v d)
      end
  | BodyNil => ret fmt.nil_verb_v
  end.

(** [http.NewRequest(method, url, body)] *)
Definition http_NewRequest (w : World) (method url body : string)
    : M Request :=
  do emit (EvNewRequest method url body) then
  match NewRequest_err w method url with
  | Some err => return_ (Some err)
  | None =>
      ret {| ReqMethod := method; ReqURL := url; ReqBody := body;
             Header := []; ReqCtx := Background |}
  end.

(** [for k, v := range h { httpreq.Header.Add(k, v) }]; the order in which
    Go ranges over a map is not specified, the model takes the order of
    [map_to_list]. *)
Definition add_headers (h : gmap string string) (httpreq : Request)
    : Request :=
  fold_left (λ r kv, Header_Add kv.1 kv.2 r) (map_to_list h) httpreq.

(** [io.ReadAll(b)] *)
Definition io_ReadAll (b : ReadCloser) : M (string * option error) :=
  do emit (EvReadAll b) then
  ret (content b, OtherError <$> failure b).

(** [return yaml.Unmarshal(resbytes, req.Data)]: the codec writes through
    the destination, the receiver holds it as the codec left it. *)
Definition return_yaml_Unmarshal {A} (w : World) (resbytes : string) : M A :=
  let* r := get in
  do emit (EvUnmarshal resbytes (Data r)) then
  do modify (set_Data (yaml_Unmarshal w resbytes (Data r)).1) then
  return_call (yaml_Unmarshal w resbytes (Data r)).2.

(** The type switch on [req.Data], lines 215 to 231. *)
Definition dataSwitch (w : World) (resbytes : string) : M unit :=
  let* r := get in
  match Data r with
  | DataMap _ => return_yaml_Unmarshal w resbytes
  | DataString _ => modify (set_Data (DataString resbytes))
  | DataBytes _ => log_Println "planned, but unimplemented, would uuencode"
  | DataOther t =>
      if is_yaml_Unmarshaler t then return_yaml_Unmarshal w resbytes
      else if is_io_Writer t then return_ None
      else if is_rwxjson_This t then
        log_Println "rwxjson, planned, but unimplemented"
      else return_yaml_Unmarshal w resbytes
  | DataNil => return_yaml_Unmarshal w resbytes
  end.

(** Lines 195 to 235: the call of the client and what follows it. *)
Definition exchange (w : World) (httpreq : Request) : M unit :=
  do emit (EvDo httpreq) then
  do modify (set_Resp (RespPtr (Client_Do w httpreq).1)) then
  match Client_Do w httpreq with
  | (_, Some err) => return_ (Some err)
  | (None, None) => panic "nil pointer dereference"
  | (Some res, None) =>
      do when (negb ((200 <=? StatusCode res) && (StatusCode res <? 300)))
           (return_ (Some (HTTPError res))) then
      let* rd := io_ReadAll (RespBody res) in
      match rd with
      | (_, Some err) => return_ (Some err)
      | (resbytes, None) =>
          do when (len resbytes =? 0) (return_ None) then
          do dataSwitch w resbytes then
          return_ None
      end
  end.

(** Lines 123 to 193: the request is checked, completed and turned into
    an [http.Request]. *)
Definition outbound (w : World) : M Request :=
  let* r := get in
  do when (String.eqb (Method r) "") (modify (set_Method "GET")) then
  let* r := get in
  do when (0 <=? strings.Index (URL r) "?")
       (return_
          (Some (ReqSyntaxError "URL contains '?' (use Query instead)"))) then
  do modify (set_URL (URL r +:+ "?" +:+ url.Encode (Query r))) then
  let* r := get in
  do when (bool_decide (Headers r = None))
       (modify (set_Headers (Some ∅))) then
  let* r := get in
  let* buf := bodySwitch (Body r) in
  do set_header "Content-Length" (strconv.Itoa (len buf)) then
  let* r := get in
  let* httpreq := http_NewRequest w (Method r) (URL r) buf in
  let httpreq :=
    match Headers r with
    | Some h => add_headers h httpreq
    | None => httpreq
    end in
  match Context r with
  | None =>
      do defer EvCancel then
      ret (WithContext (WithTimeout (dur w)) httpreq)
  | Some _ => ret httpreq
  end.

Definition Submit_body (w : World) : M unit :=
  let* httpreq := outbound w in
  exchange w httpreq.

(** [req.Submit()] *)
Definition Submit (w : World) (r : Req) : Result := run (Submit_body w) r.

(** ** Notions the properties are stated with *)

(** A logging call. *)
Definition is_log (e : Event) : Prop := ∃ msg, e = EvLog msg.

(** The receiver once lines 125 to 137 have run on a URL without [?]. *)
Definition completed (r : Req) : Req :=
  set_Headers (Some (default ∅ (Headers r)))
    (set_URL (URL r +:+ "?" +:+ url.Encode (Query r))
       (if String.eqb (Method r) "" then set_Method "GET" r else r)).

(** The body [v] serializes to [buf]: the switch of line 141 goes on with
    [buf], in whatever state it is run whose header map is not nil. *)
Definition serializes_to (v : BodyAny) (buf : string) : Prop :=
  ∀ s h, Headers (req s) = Some h → (bodySwitch v s).1 = Next buf.

(** What a marshalling call amounts to for the switch: the text, or the
    error of the call returned to the caller. *)
Definition outcome (m : Marshalled) : Flow string :=
  match m.2 with
  | Some err => Leave (Returned (Some err))
  | None => Next m.1
  end.

(** In range for line 202. *)
Definition is_2xx (res : Response) : Prop :=
  200 <= StatusCode res < 300.

(** The status of the response alone decides how [Submit] ends: no error
    in [200,300), the [HTTPError] wrapping the response outside. *)
Definition status_decides_outcome : Prop :=
  ∀ w r rq res,
    EvDo rq ∈ events (Submit w r) →
    Client_Do w rq = (Some res, None) →
    (is_2xx res →
     exit (Submit w r) = Returned None ∧
     Resp (final (Submit w r)) = RespPtr (Some res)) ∧
    (¬ is_2xx res →
     exit (Submit w r) = Returned (Some (HTTPError res))).

(** A [ReqSyntaxError]. *)
Definition is_syntax_error (e : option error) : Prop :=
  ∃ msg, e = Some (ReqSyntaxError msg).

(** ** The paths through [Submit]

    The ways the two halves of the function and its two type switches can
    end, as relations between the state before and the result. *)

(** How the switch on the destination leaves the function or goes on. *)
Inductive decoded (w : World) (resbytes : string) (s : State)
    : Flow unit * State → Prop :=
| decoded_unmarshal :
    decoded w resbytes s
      (Leave (ends (yaml_Unmarshal w resbytes (Data (req s))).2),
       {| req := set_Data (yaml_Unmarshal w resbytes (Data (req s))).1 (req s);
          trace := trace s ++ [EvUnmarshal resbytes (Data (req s))];
          deferred := deferred s |})
| decoded_string :
    decoded w resbytes s
      (Next tt,
       {| req := set_Data (DataString resbytes) (req s); trace := trace s;
          deferred := deferred s |})
| decoded_logged msg :
    decoded w resbytes s
      (Next tt,
       {| req := req s; trace := trace s ++ [EvLog msg];
          deferred := deferred s |})
| decoded_kept :
    decoded w resbytes s (Leave (Returned None), s).

(** The request handed to the client: what [http.NewRequest] builds from
    the completed receiver [r] and [buf], with the headers added and the
    deadline set. *)
Definition built (w : World) (r : Req) (h : gmap string string)
    (buf : string) : Request :=
  let httpreq :=
    add_headers h
      {| ReqMethod := Method r; ReqURL := URL r; ReqBody := buf;
         Header := []; ReqCtx := Background |} in
  match Context r with
  | None => WithContext (WithTimeout (dur w)) httpreq
  | Some _ => httpreq
  end.

(** How lines 123 to 193 end on a URL without [?]. *)
Inductive prepared (w : World) (r : Req) : Flow Request * State → Prop :=
| prepared_marshal_error h logs e :
    Forall is_log logs →
    (bodySwitch (Body r) (init (completed r))).1 = Leave (Returned (Some e)) →
    prepared w r
      (Leave (Returned (Some e)),
       {| req := set_Headers (Some h) (completed r); trace := logs;
          deferred := [] |})
| prepared_request_error h logs buf e :
    Forall is_log logs →
    (bodySwitch (Body r) (init (completed r))).1 = Next buf →
    h !! "Content-Length" = Some (strconv.Itoa (len buf)) →
    NewRequest_err w (Method (completed r)) (URL (completed r)) = Some e →
    prepared w r
      (Leave (Returned (Some e)),
       {| req := set_Headers (Some h) (completed r);
          trace := logs ++ [EvNewRequest (Method (completed r))
                              (URL (completed r)) buf];
          deferred := [] |})
| prepared_request h logs buf :
    Forall is_log logs →
    (bodySwitch (Body r) (init (completed r))).1 = Next buf →
    h !! "Content-Length" = Some (strconv.Itoa (len buf)) →
    prepared w r
      (Next (built w (completed r) h buf),
       {| req := set_Headers (Some h) (completed r);
          trace := logs ++ [EvNewRequest (Method (completed r))
                              (URL (completed r)) buf];
          deferred := match Context r with
                      | None => [EvCancel]
                      | Some _ => []
                      end |}).

(** The state once the client has been called, lines 195 and 196. *)
Definition called (w : World) (rq : Request) (s : State) : State :=
  {| req := set_Resp (RespPtr (Client_Do w rq).1) (req s);
     trace := trace s ++ [EvDo rq]; deferred := deferred s |}.

(** The state once the body of the response has been read, line 206. *)
Definition read (b : ReadCloser) (s : State) : State :=
  {| req := req s; trace := trace s ++ [EvReadAll b];
     deferred := deferred s |}.

(** How lines 195 to 235 end. *)
Inductive exchanged (w : World) (rq : Request) (s : State)
    : Flow unit * State → Prop :=
| exchanged_transport_error res e :
    Client_Do w rq = (res, Some e) →
    exchanged w rq s (Leave (Returned (Some e)), called w rq s)
| exchanged_no_response :
    Client_Do w rq = (None, None) →
    exchanged w rq s
      (Leave (Panicked "nil pointer dereference"), called w rq s)
| exchanged_status res :
    Client_Do w rq = (Some res, None) →
    ¬ is_2xx res →
    exchanged w rq s (Leave (Returned (Some (HTTPError res))), called w rq s)
| exchanged_read_error res msg :
    Client_Do w rq = (Some res, None) →
    is_2xx res →
    failure (RespBody res) = Some msg →
    exchanged w rq s
      (Leave (Returned (Some (OtherError msg))),
       read (RespBody res) (called w rq s))
| exchanged_empty res :
    Client_Do w rq = (Some res, None) →
    is_2xx res →
    failure (RespBody res) = None →
    content (RespBody res) = "" →
    exchanged w rq s
      (Leave (Returned None), read (RespBody res) (called w rq s))
| exchanged_decoded res f s' :
    Client_Do w rq = (Some res, None) →
    is_2xx res →
    failure (RespBody res) = None →
    content (RespBody res) ≠ "" →
    decoded w (content (RespBody res)) (read (RespBody res) (called w rq s))
      (f, s') →
    exchanged w rq s
      (Leave match f with Next _ => Returned None | Leave x => x end, s').

(** How a call ends on a URL without [?]. *)
Inductive submitted (w : World) (r : Req) : Result → Prop :=
| submitted_early x s :
    prepared w r (Leave x, s) →
    submitted w r
      {| final := req s; exit := x; events := trace s ++ deferred s |}
| submitted_exchanged rq s x s' :
    prepared w r (Next rq, s) →
    exchanged w rq s (Leave x, s') →
    submitted w r
      {| final := req s'; exit := x; events := trace s' ++ deferred s' |}.

(** ** Examples: servers, codecs and requests *)

(** The value of a string of decimal digits, if it is one. *)
Fixpoint digits (s : string) (acc : Z) : option Z :=
  match s with
  | EmptyString => Some acc
  | String c s' =>
      let n := Z.of_N (N_of_ascii c) in
      if (48 <=? n) && (n <=? 57) then digits s' (10 * acc + (n - 48))
      else None
  end.

(** A destination of type [*int] holding [i], as in the test
    [ExampleFetch] ([Into: &anint]). *)
Definition int_ptr (i : Z) : DataAny :=
  DataOther {| is_yaml_Unmarshaler := false; is_io_Writer := false;
               is_rwxjson_This := false; holds := VInt i |}.

(** What [yaml.Unmarshal] makes of a body and an [*int]: a decimal literal
    is stored, a body that is no number is refused and the destination is
    left as it was. *)
Definition unmarshal_int (resbytes : string) (dst : DataAny)
    : DataAny * Outcome :=
  match resbytes, digits resbytes 0 with
  | String _ _, Some i => (int_ptr i, Gives None)
  | _, _ =>
      (dst, Gives (Some (OtherError
                     "yaml: unmarshal errors: cannot unmarshal !!str into int")))
  end.

(** A test server ([httptest.NewServer]) whose handler writes [body] with
    the given status, behind the default client. *)
Definition server (code : Z) (status body : string) : World :=
  {| TimeOut := 60;
     NewRequest_err := λ _ _, None;
     Client_Do := λ _,
       (Some {| Status := status; StatusCode := code;
                RespBody := {| content := body; failure := None |} |}, None);
     yaml_Unmarshal := unmarshal_int |}.

(** No server behind the address: the client fails to connect. *)
Definition unreachable : World :=
  {| TimeOut := 60;
     NewRequest_err := λ _ _, None;
     Client_Do := λ _,
       (None, Some (OtherError "dial tcp 127.0.0.1:9: connect: connection refused"));
     yaml_Unmarshal := unmarshal_int |}.

(** [&web.Req{URL: url, Body: body, Data: &anint}] with [anint := 0]. *)
Definition fetch_int (url : string) (body : BodyAny) : Req :=
  {| Method := ""; URL := url; Query := ∅; Headers := None; Body := body;
     Data := int_ptr 0; Context := None; Resp := RespNil |}.

(** The request [Submit] builds from [fetch_int "http://127.0.0.1:8080" b]
    when [b] serializes to [buf]. *)
Definition fetch_int_request (buf : string) : Request :=
  {| ReqMethod := "GET"; ReqURL := "http://127.0.0.1:8080?"; ReqBody := buf;
     Header := [("Content-Length", strconv.Itoa (len buf))];
     ReqCtx := WithTimeout 60000000000 |}.

(** A body of type [int], the number 42: none of the interfaces, and
    [%v] prints it in decimal. *)
Definition int_42 : BodyAny :=
  BodyOther {| yaml_Marshal := None; json_Marshal := None;
               MarshalText := None; Stringer := None; Sprintf_v := "42" |}.

(** A value whose type implements both [json.Marshaler] and
    [fmt.Stringer]: it marshals to an empty JSON object and prints as
    [text]. *)
Definition json_and_stringer : Dynamic :=
  {| yaml_Marshal := None; json_Marshal := Some ("{}", None);
     MarshalText := None; Stringer := Some "text";
     Sprintf_v := "text" |}.

(** ** More notions: what the first half leaves behind *)

(** The header map after the switch on the body: form values set the
    content type, nothing else touches the map. *)
Definition body_headers (v : BodyAny) (h : gmap string string)
    : gmap string string :=
  match v with
  | BodyValues _ => <["Content-Type" := "application/x-www-form-urlencoded"]> h
  | _ => h
  end.

(** The logging of the switch on the body: only the case of bytes logs. *)
Definition body_logs (v : BodyAny) : list Event :=
  match v with
  | BodyBytes _ => [EvLog "planned, but unimplemented, would uuencode"]
  | _ => []
  end.

(** The header map once line 175 has run for the buffer [buf]. *)
Definition sent_headers (r : Req) (buf : string) : gmap string string :=
  <["Content-Length" := strconv.Itoa (len buf)]>
    (body_headers (Body r) (default ∅ (Headers r))).

(** The state in which the switch on the body leaves the function when a
    marshalling call fails. *)
Definition serialized (r : Req) : State :=
  {| req := set_Headers
              (Some (body_headers (Body r) (default ∅ (Headers r))))
              (completed r);
     trace := body_logs (Body r);
     deferred := [] |}.

(** The state once [http.NewRequest] has been called for [buf], with the
    calls [ds] deferred. *)
Definition requested (r : Req) (buf : string) (ds : list Event) : State :=
  {| req := set_Headers (Some (sent_headers r buf)) (completed r);
     trace := body_logs (Body r) ++
              [EvNewRequest (Method (completed r)) (URL (completed r)) buf];
     deferred := ds |}.

(** What a call that leaves the function with [x] in state [s] amounts
    to. *)
Definition ended (x : Exit) (s : State) : Result :=
  {| final := req s; exit := x; events := trace s ++ deferred s |}.

(** The marshalling of the body fails with [e]. *)
Definition fails_with (v : BodyAny) (e : error) : Prop :=
  ∀ s h, Headers (req s) = Some h →
    (bodySwitch v s).1 = Leave (Returned (Some e)).

(** The method a request is sent with: [GET] unless the caller names
    one. *)
Definition method_sent (r : Req) : string :=
  if String.eqb (Method r) "" then "GET" else Method r.

(** The release of the deadline, deferred when the caller gave no
    context. *)
Definition release (r : Req) : list Event :=
  match Context r with None => [EvCancel] | Some _ => [] end.

(** The destinations the switch of line 215 hands to [yaml.Unmarshal]:
    nil, a map, a [yaml.Unmarshaler], and any other value that is neither
    an [io.Writer] nor a [rwxjson.This]. *)
Definition decodes (d : DataAny) : bool :=
  match d with
  | DataNil | DataMap _ => true
  | DataString _ | DataBytes _ => false
  | DataOther t =>
      is_yaml_Unmarshaler t || negb (is_io_Writer t || is_rwxjson_This t)
  end.

(** The destinations for which the switch of line 215 drops the body:
    bytes, and the writers and [rwxjson.This] values that are no
    [yaml.Unmarshaler]. *)
Definition discards (d : DataAny) : bool :=
  match d with
  | DataBytes _ => true
  | DataOther t =>
      negb (is_yaml_Unmarshaler t) && (is_io_Writer t || is_rwxjson_This t)
  | _ => false
  end.

(** [c] occurs in [s]. *)
Fixpoint mentions (c : ascii) (s : string) : bool :=
  match s with
  | EmptyString => false
  | String x s' => Ascii.eqb x c || mentions c s'
  end.

(** ** More examples *)

(** A value whose [MarshalYAML] method fails. *)
Definition broken_yaml : BodyAny :=
  BodyOther {| yaml_Marshal := Some ("", Some (OtherError "cannot marshal"));
               json_Marshal := None; MarshalText := None; Stringer := None;
               Sprintf_v := "{}" |}.

(** [http.NewRequest] refuses a method that is no token, such as one with
    a space in it. *)
Definition refusing_methods : World :=
  {| TimeOut := 60;
     NewRequest_err := λ method _,
       if mentions " " method
       then Some (OtherError "net/http: invalid method")
       else None;
     Client_Do := λ _,
       (Some {| Status := "200 OK"; StatusCode := 200;
                RespBody := {| content := ""; failure := None |} |}, None);
     yaml_Unmarshal := unmarshal_int |}.

(** A server whose connection breaks while the body is read. *)
Definition breaking : World :=
  {| TimeOut := 60;
     NewRequest_err := λ _ _, None;
     Client_Do := λ _,
       (Some {| Status := "200 OK"; StatusCode := 200;
                RespBody := {| content := "202";
                               failure := Some "unexpected EOF" |} |}, None);
     yaml_Unmarshal := unmarshal_int |}.

(** A request like [fetch_int] with the given method, headers, context
    and destination. *)
Definition request (method : string) (h : HeaderMap) (c : option Ctx)
    (d : DataAny) : Req :=
  {| Method := method; URL := "http://127.0.0.1:8080"; Query := ∅;
     Headers := h; Body := BodyString ""; Data := d; Context := c;
     Resp := RespNil |}.

(** An [io.Writer] such as [os.Stdout]. *)
Definition a_writer : DataAny :=
  DataOther {| is_yaml_Unmarshaler := false; is_io_Writer := true;
               is_rwxjson_This := false; holds := VNull |}.

(** * Properties *)

(** The monad is unfolded down to functions on states. *)
Ltac monad_unfold :=
  cbv beta iota zeta delta
    [bind ret return_ panic get modify emit defer when set_header
     log_Println marshalled http_NewRequest io_ReadAll
     return_yaml_Unmarshal return_call fst snd] in *.

(** Every premise on what the client answered is compared with [Hdo]. *)
Ltac same_response Hdo :=
  repeat match goal with
         | H : Client_Do _ _ = _ |- _ =>
             lazymatch H with
             | Hdo => fail
             | _ => rewrite Hdo in H;
                    first [discriminate H | injection H as <-]
             end
         end.

(** ** Strings *)

(** The character of [a ++ c :: b] at the length of [a] is [c]. *)
Lemma substring_at_append (a b : string) (c : ascii) :
  substring (String.length a) 1 (a +:+ String c b) = String c "".
Proof.
  induction a as [|x a IH].
  - by destruct b.
  - exact IH.
Qed.

(** [strings.Index] finds the [?] of a string that contains one. *)
Lemma Index_found (a b : string) :
  0 <= strings.Index (a +:+ "?" +:+ b) "?".
Proof.
  unfold strings.Index.
  destruct (index 0 "?" (a +:+ "?" +:+ b)) as [n|] eqn:E; [lia|].
  exfalso. eapply (index_correct3 0 (String.length a)) in E; [|done|lia].
  apply E. apply substring_at_append.
Qed.

(** No query parameters encode to the empty string. *)
Lemma Encode_empty : url.Encode ∅ = "".
Proof. reflexivity. Qed.

(** ** The two type switches *)

Lemma set_Headers_id r h : Headers r = Some h → set_Headers (Some h) r = r.
Proof. destruct r; simpl; intros ->; reflexivity. Qed.

(** The switch on the body only logs and only touches the header map; it
    goes on with a buffer or returns an error. *)
Lemma bodySwitch_spec v s h :
  Headers (req s) = Some h →
  ∃ f logs h',
    bodySwitch v s =
      (f, {| req := set_Headers (Some h') (req s); trace := trace s ++ logs;
             deferred := deferred s |}) ∧
    Forall is_log logs ∧
    ((∃ buf, f = Next buf) ∨ (∃ e, f = Leave (Returned (Some e)))).
Proof.
  intros Hh. destruct s as [r t d]; simpl in *.
  destruct v as [|v|b|str|d0]; unfold bodySwitch; monad_unfold; simpl.
  - eexists _, [], h. rewrite app_nil_r, (set_Headers_id _ _ Hh). eauto.
  - rewrite Hh. eexists _, [], _. rewrite app_nil_r. eauto.
  - eexists _, [_], h. rewrite (set_Headers_id _ _ Hh).
    split; [reflexivity|]. split; [|eauto]. repeat constructor. eexists; eauto.
  - eexists _, [], h. rewrite app_nil_r, (set_Headers_id _ _ Hh). eauto.
  - destruct (yaml_Marshal d0) as [[? [?|]]|]; [| |
      destruct (json_Marshal d0) as [[? [?|]]|]; [| |
      destruct (MarshalText d0) as [[? [?|]]|]; [| |
      destruct (Stringer d0) as [?|]]]];
    (eexists _, [], h; rewrite app_nil_r, (set_Headers_id _ _ Hh); eauto).
Qed.

(** The switch on the destination ends in one of the four ways of
    [decoded]. *)
Lemma dataSwitch_spec w resbytes s :
  decoded w resbytes s (dataSwitch w resbytes s).
Proof.
  destruct s as [r t d]. unfold dataSwitch. monad_unfold. simpl.
  destruct (Data r) as [|m|str|b|tg]; try solve [constructor].
  destruct (is_yaml_Unmarshaler tg), (is_io_Writer tg), (is_rwxjson_This tg);
    constructor.
Qed.

(** ** Lines 123 to 193 *)

(** A URL with a [?] ends the function at line 130, the method being the
    only field assigned. *)
Lemma outbound_rejected w r :
  0 <= strings.Index (URL r) "?" →
  outbound w (init r) =
    (Leave (Returned
       (Some (ReqSyntaxError "URL contains '?' (use Query instead)"))),
     init (if String.eqb (Method r) "" then set_Method "GET" r else r)).
Proof.
  intros Hq. unfold outbound, init.
  assert (Hq' : (0 <=? strings.Index (URL r) "?") = true) by lia.
  destruct r as [m u q h b d c rs].
  cbv beta iota zeta delta
    [bind get when modify return_ ret req Method URL set_Method] in *.
  destruct (String.eqb m ""); rewrite Hq'; reflexivity.
Qed.

(** On a URL without [?], lines 125 to 137 turn the receiver into
    [completed r] and make no call; the rest runs from there. *)
Lemma outbound_eq w r :
  strings.Index (URL r) "?" < 0 →
  outbound w (init r) =
    (let* buf := bodySwitch (Body r) in
     do set_header "Content-Length" (strconv.Itoa (len buf)) then
     let* r := get in
     let* httpreq := http_NewRequest w (Method r) (URL r) buf in
     let httpreq :=
       match Headers r with
       | Some h => add_headers h httpreq
       | None => httpreq
       end in
     match Context r with
     | None =>
        do defer EvCancel then
        ret (WithContext (WithTimeout (dur w)) httpreq)
     | Some _ => ret httpreq
     end) (init (completed r)).
Proof.
  intros Hq. unfold outbound, completed, init.
  assert (Hq' : (0 <=? strings.Index (URL r) "?") = false) by lia.
  destruct r as [m u q h b d c rs].
  cbv beta iota zeta delta
    [bind get when modify return_ ret req Method URL Headers Query Body
     set_Method set_URL set_Headers] in *.
  destruct (String.eqb m ""); rewrite Hq'; destruct h as [h|];
    (case_bool_decide; [try discriminate|try congruence]); reflexivity.
Qed.

Lemma completed_Headers r : Headers (completed r) = Some (default ∅ (Headers r)).
Proof. reflexivity. Qed.

(** The first half of the function ends in one of the three ways of
    [prepared]. *)
Lemma outbound_spec w r :
  strings.Index (URL r) "?" < 0 →
  prepared w r (outbound w (init r)).
Proof.
  intros Hq. rewrite (outbound_eq w r Hq).
  destruct (bodySwitch_spec (Body r) (init (completed r)) _
              (completed_Headers r)) as (f & logs & h' & Hb & Hlogs & Hf).
  unfold bind at 1.
  assert (Hfst : (bodySwitch (Body r) (init (completed r))).1 = f)
    by (rewrite Hb; reflexivity).
  rewrite Hb. simpl in *.
  destruct Hf as [[buf ->]|[e ->]]; [|by constructor].
  monad_unfold. simpl.
  destruct (NewRequest_err w _ _) as [e|] eqn:En.
  - apply (prepared_request_error w r _ logs buf e); auto.
    apply lookup_insert_eq.
  - pose proof (prepared_request w r
      (<["Content-Length":=strconv.Itoa (len buf)]> h') logs buf Hlogs Hfst
      (lookup_insert_eq _ _ _)) as P.
    unfold built, completed in *.
    destruct r as [m u q h b d c rs]. simpl in *.
    destruct (String.eqb m ""), c; exact P.
Qed.

(** ** Lines 195 to 235 *)

Lemma len_zero (s : string) : (len s =? 0) = true ↔ s = "".
Proof.
  unfold len. destruct s; simpl; split; intros H; try done; lia.
Qed.

(** The client is called and its response recorded first; what follows
    runs from the state [called w rq s]. *)
Lemma exchange_eq w rq s :
  exchange w rq s =
    match Client_Do w rq with
    | (_, Some err) => return_ (Some err)
    | (None, None) => panic "nil pointer dereference"
    | (Some res, None) =>
        do when (negb ((200 <=? StatusCode res) && (StatusCode res <? 300)))
             (return_ (Some (HTTPError res))) then
        λ s1,
          match OtherError <$> failure (RespBody res) with
          | Some err => return_ (Some err)
          | None =>
              do when (len (content (RespBody res)) =? 0) (return_ None) then
              do dataSwitch w (content (RespBody res)) then
              return_ None
          end (read (RespBody res) s1)
    end (called w rq s).
Proof.
  unfold exchange, called. cbv beta iota zeta delta [bind emit modify].
  cbn [req trace deferred].
  destruct (Client_Do w rq) as [[res|] [e|]]; reflexivity.
Qed.

(** The second half of the function ends in one of the six ways of
    [exchanged]. *)
Lemma exchange_spec w rq s : exchanged w rq s (exchange w rq s).
Proof.
  rewrite exchange_eq.
  destruct (Client_Do w rq) as [[res|] [e|]] eqn:Ed;
    try (econstructor; eassumption).
  cbv beta iota zeta delta [bind when return_ ret].
  destruct (negb _) eqn:Er.
  - apply exchanged_status; [done|]. unfold is_2xx.
    apply negb_true_iff, andb_false_iff in Er. lia.
  - assert (H2 : is_2xx res).
    { unfold is_2xx. apply negb_false_iff, andb_true_iff in Er. lia. }
    destruct (failure (RespBody res)) as [msg|] eqn:Ef; simpl.
    + by apply exchanged_read_error with (res := res).
    + destruct (len (content (RespBody res)) =? 0) eqn:El.
      * apply len_zero in El. by apply exchanged_empty.
      * pose proof (dataSwitch_spec w (content (RespBody res))
                      (read (RespBody res) (called w rq s))) as Hd.
        assert (Hne : content (RespBody res) ≠ "").
        { intros Hc. apply len_zero in Hc. congruence. }
        destruct (dataSwitch w _ _) as [f s'].
        pose proof (exchanged_decoded w rq s res f s' Ed H2 Ef Hne Hd) as P.
        destruct f; exact P.
Qed.

(** ** The whole function *)

(** A call on a URL with a [?]. *)
Lemma Submit_rejected w r :
  0 <= strings.Index (URL r) "?" →
  Submit w r =
    {| final := if String.eqb (Method r) "" then set_Method "GET" r else r;
       exit := Returned
         (Some (ReqSyntaxError "URL contains '?' (use Query instead)"));
       events := [] |}.
Proof.
  intros Hq. unfold Submit, run, Submit_body, bind.
  rewrite (outbound_rejected w r Hq). reflexivity.
Qed.

(** A call on a URL without [?]. *)
Lemma Submit_spec w r :
  strings.Index (URL r) "?" < 0 → submitted w r (Submit w r).
Proof.
  intros Hq. pose proof (outbound_spec w r Hq) as Ho.
  unfold Submit, run, Submit_body, bind.
  destruct (outbound w (init r)) as [[rq|x] s].
  - pose proof (exchange_spec w rq s) as He.
    destruct (exchange w rq s) as [[[]|x] s'].
    + inversion He.
    + by apply submitted_exchanged with (rq := rq) (s := s).
  - by apply submitted_early.
Qed.

(** ** What a call does to the outside world *)

(** Before the client is called, the function only logs and builds the
    request; the release of the deadline is all it defers. *)
Lemma prepared_trace w r f s :
  prepared w r (f, s) →
  ∀ e, e ∈ trace s ++ deferred s →
    is_log e ∨ (∃ m u b, e = EvNewRequest m u b) ∨ e = EvCancel.
Proof.
  intros Hp e He. inversion Hp; subst; simpl in *;
    repeat (rewrite ?elem_of_app, ?list_elem_of_singleton, ?elem_of_nil in He);
    rewrite ?Forall_forall in *.
  - destruct He as [He|[]]. auto.
  - destruct He as [[He| ->]|[]]; eauto 6.
  - destruct He as [[He| ->]|He]; eauto 6.
    destruct (Context r); [by apply elem_of_nil in He|].
    apply list_elem_of_singleton in He. auto.
Qed.

(** The switch on the destination only logs and decodes. *)
Lemma decoded_trace w resbytes s f s' :
  decoded w resbytes s (f, s') →
  deferred s' = deferred s ∧
  ∃ tail, trace s' = trace s ++ tail ∧
    ∀ e, e ∈ tail → is_log e ∨ ∃ b d, e = EvUnmarshal b d.
Proof.
  intros Hd. inversion Hd; subst; simpl; (split; [done|]).
  - eexists [_]. split; [done|]. intros e ->%list_elem_of_singleton. eauto.
  - exists []. rewrite app_nil_r. split; [done|]. by intros e ?%elem_of_nil.
  - eexists [_]. split; [done|]. intros e ->%list_elem_of_singleton.
    left. by eexists.
  - exists []. rewrite app_nil_r. split; [done|]. by intros e ?%elem_of_nil.
Qed.

(** The second half calls the client once, then only reads the body,
    logs and decodes. *)
Lemma exchanged_trace w rq s f s' :
  exchanged w rq s (f, s') →
  deferred s' = deferred s ∧
  ∃ tail, trace s' = trace s ++ EvDo rq :: tail ∧
    ∀ e, e ∈ tail →
      is_log e ∨ (∃ b, e = EvReadAll b) ∨ (∃ b d, e = EvUnmarshal b d).
Proof.
  intros He. inversion He; subst; simpl.
  1-3: split; [done|]; exists []; split; [done|]; by intros ev ?%elem_of_nil.
  1-2: split; [done|]; eexists [_]; rewrite <- app_assoc; split; [done|];
       intros ev ->%list_elem_of_singleton; eauto.
  match goal with H : decoded _ _ _ _ |- _ =>
    apply decoded_trace in H as (Hd & tail & Ht & Htail) end.
  simpl in *. split; [done|].
  exists (EvReadAll (RespBody res) :: tail).
  rewrite Ht, <- !app_assoc. split; [done|].
  intros ev [->|He']%elem_of_cons; [eauto|].
  destruct (Htail ev He') as [?|?]; auto.
Qed.

(** A call of the client is the one the function makes after it has
    built the request. *)
Lemma Submit_Do w r rq :
  EvDo rq ∈ events (Submit w r) →
  ∃ s x s',
    strings.Index (URL r) "?" < 0 ∧
    prepared w r (Next rq, s) ∧
    exchanged w rq s (Leave x, s') ∧
    Submit w r =
      {| final := req s'; exit := x; events := trace s' ++ deferred s' |}.
Proof.
  intros Hin. destruct (Z_lt_le_dec (strings.Index (URL r) "?") 0) as [Hq|Hq].
  - pose proof (Submit_spec w r Hq) as Hs.
    inversion Hs as [x s Hp Heq|rq0 s x s' Hp He Heq];
      rewrite <- Heq in Hin; simpl in Hin.
    + apply (prepared_trace _ _ _ _ Hp) in Hin
        as [[? ?]|[(? & ? & ? & ?)|?]]; discriminate.
    + destruct (exchanged_trace _ _ _ _ _ He) as (Hd & tail & Ht & Htail).
      assert (rq = rq0) as ->.
      { rewrite Ht, Hd, <- app_assoc in Hin.
        apply elem_of_app in Hin as [Hin|Hin].
        { assert (Hin' : EvDo rq ∈ trace s ++ deferred s)
            by (apply elem_of_app; auto).
          apply (prepared_trace _ _ _ _ Hp) in Hin'
            as [[? ?]|[(? & ? & ? & ?)|?]]; discriminate. }
        apply elem_of_app in Hin as [Hin|Hin].
        { apply elem_of_cons in Hin as [Hin|Hin]; [congruence|].
          destruct (Htail _ Hin) as [[? ?]|[[? ?]|(? & ? & ?)]]; discriminate. }
        assert (Hin' : EvDo rq ∈ trace s ++ deferred s)
          by (apply elem_of_app; auto).
        apply (prepared_trace _ _ _ _ Hp) in Hin'
          as [[? ?]|[(? & ? & ? & ?)|?]]; discriminate. }
      eauto 10.
  - rewrite (Submit_rejected w r Hq) in Hin. by apply elem_of_nil in Hin.
Qed.

(** What the exchange leaves of the receiver. *)
Lemma exchanged_req w rq s f s' :
  exchanged w rq s (f, s') →
  ∃ d, req s' = set_Data d (set_Resp (RespPtr (Client_Do w rq).1) (req s)).
Proof.
  assert (Hid : ∀ r, set_Data (Data r) r = r) by (by intros []).
  intros He. inversion He; subst; simpl; try (by eexists; rewrite Hid).
  match goal with H : decoded _ _ _ _ |- _ => inversion H; subst; simpl end;
    try (by eexists); by eexists; rewrite Hid.
Qed.

(** ** What a call leaves of the receiver and of the request *)

(** A string whose character at position [n] is [c] splits there. *)
Lemma substring_1_split (n : nat) (s : string) (c : ascii) :
  substring n 1 s = String c "" → ∃ a b, s = a +:+ String c b.
Proof.
  revert s. induction n as [|n IH]; intros [|x s] H; try discriminate.
  - simpl in H. injection H as -> _. by exists "", s.
  - destruct (IH s H) as (a & b & ->). by exists (String x a), b.
Qed.

(** The check of line 129 holds exactly for the strings that contain a
    [?]. *)
Lemma Index_query_separator (s : string) :
  0 <= strings.Index s "?" ↔ ∃ a b, s = a +:+ "?" +:+ b.
Proof.
  split.
  - unfold strings.Index.
    destruct (index 0 "?" s) as [n|] eqn:E; [intros _|lia].
    apply index_correct1 in E. by apply substring_1_split in E.
  - intros (a & b & ->). apply Index_found.
Qed.

(** Adding headers appends them to those of the request and leaves the
    rest of it. *)
Lemma add_headers_spec (kvs : list (string * string)) (rq : Request) :
  let rq' := fold_left (λ r kv, Header_Add kv.1 kv.2 r) kvs rq in
  ReqMethod rq' = ReqMethod rq ∧ ReqURL rq' = ReqURL rq ∧
  ReqBody rq' = ReqBody rq ∧ ReqCtx rq' = ReqCtx rq ∧
  Header rq' = Header rq ++ (stored <$> kvs).
Proof.
  revert rq. induction kvs as [|[k v] kvs IH]; intros rq; simpl.
  - by rewrite app_nil_r.
  - destruct (IH (Header_Add k v rq)) as (-> & -> & -> & -> & ->).
    simpl. by rewrite <- app_assoc.
Qed.

(** The headers of the request given to the client are those of the
    header map, each under its canonical name, in the order of
    [map_to_list]. *)
Lemma built_Header w r h buf :
  Header (built w r h buf) = stored <$> map_to_list h.
Proof.
  unfold built, add_headers.
  destruct (add_headers_spec (map_to_list h)
    {| ReqMethod := Method r; ReqURL := URL r; ReqBody := buf;
       Header := []; ReqCtx := Background |}) as (_ & _ & _ & _ & Hh).
  by destruct (Context r).
Qed.

(** The request given to the client has the method, the URL and the body
    it was built from, and every header of the receiver under its
    canonical name. *)
Lemma built_spec w r h buf :
  ReqMethod (built w r h buf) = Method r ∧
  ReqURL (built w r h buf) = URL r ∧
  ReqBody (built w r h buf) = buf ∧
  ∀ k v, h !! k = Some v →
    (textproto.CanonicalMIMEHeaderKey k, v) ∈ Header (built w r h buf).
Proof.
  rewrite built_Header. unfold built, add_headers.
  destruct (add_headers_spec (map_to_list h)
    {| ReqMethod := Method r; ReqURL := URL r; ReqBody := buf;
       Header := []; ReqCtx := Background |}) as (Hm & Hu & Hb & _ & _).
  simpl in *.
  destruct (Context r); simpl; rewrite ?Hm, ?Hu, ?Hb;
    repeat (split; [done|]); intros k v Hkv;
    apply (list_elem_of_fmap_2 stored _ (k, v));
    by apply elem_of_map_to_list.
Qed.

(** The second half leaves the headers and the URL of the receiver. *)
Lemma exchanged_Headers w rq s f s' :
  exchanged w rq s (f, s') →
  Headers (req s') = Headers (req s) ∧ URL (req s') = URL (req s).
Proof. intros [d ->]%exchanged_req. done. Qed.

(** The first half leaves the destination. *)
Lemma prepared_Data w r f s : prepared w r (f, s) → Data (req s) = Data r.
Proof.
  intros Hp. inversion Hp; subst; simpl; unfold completed;
    by destruct (String.eqb (Method r) ""), r.
Qed.

(** A logging call is no request. *)
Lemma logs_no_request logs m u b :
  Forall is_log logs → EvNewRequest m u b ∉ logs.
Proof.
  intros Hlogs Hin. rewrite Forall_forall in Hlogs.
  destruct (Hlogs _ Hin) as [? ?]. discriminate.
Qed.

(** The requests built before the client is called have the URL of the
    receiver followed by the query. *)
Lemma prepared_requests w r f s m u b :
  prepared w r (f, s) →
  EvNewRequest m u b ∈ trace s ++ deferred s →
  u = URL r +:+ "?" +:+ url.Encode (Query r).
Proof.
  intros Hp Hin.
  inversion Hp as [h logs e Hlogs _|h logs buf e Hlogs _ _ _
                  |h logs buf Hlogs _ _]; subst;
    cbn [trace deferred] in Hin.
  - rewrite app_nil_r in Hin. by apply logs_no_request in Hin.
  - rewrite app_nil_r in Hin.
    apply elem_of_app in Hin as [Hin|Hin%list_elem_of_singleton];
      [by apply logs_no_request in Hin | by injection Hin].
  - apply elem_of_app in Hin as [Hin|Hin].
    + apply elem_of_app in Hin as [Hin|Hin%list_elem_of_singleton];
        [by apply logs_no_request in Hin | by injection Hin].
    + destruct (Context r); [by apply elem_of_nil in Hin|].
      apply list_elem_of_singleton in Hin. discriminate.
Qed.

(** What the bodies of the types the switch names serialize to. *)
Lemma serializes_to_cases :
  (∀ v, serializes_to (BodyValues v) (url.Encode v)) ∧
  (∀ b, serializes_to (BodyBytes b) "") ∧
  (∀ v, serializes_to (BodyString v) v) ∧
  serializes_to BodyNil "<nil>".
Proof.
  repeat apply conj; intros; intros s h Hh; try reflexivity.
  unfold bodySwitch. monad_unfold. by rewrite Hh.
Qed.

(** Every body serializes to some buffer, unless its marshalling call
    fails. *)
Lemma serializes_or_fails v :
  (∃ buf, serializes_to v buf) ∨
  (∃ e, ∀ s h, Headers (req s) = Some h →
          (bodySwitch v s).1 = Leave (Returned (Some e))).
Proof.
  destruct serializes_to_cases as (Hv & Hb & Hs & Hn).
  destruct v as [|v|b|str|d]; eauto.
  unfold serializes_to. simpl.
  destruct (yaml_Marshal d) as [[? [?|]]|]; [| |
    destruct (json_Marshal d) as [[? [?|]]|]; [| |
    destruct (MarshalText d) as [[? [?|]]|]; [| |
    destruct (Stringer d) as [?|]]]]; eauto.
Qed.

(** When the switch on the body goes on with [buf], a request with body
    [buf] is built, the receiver gets the length of [buf] as its
    [Content-Length], and so does the request given to the client. *)
Lemma Submit_serialized w r buf :
  strings.Index (URL r) "?" < 0 →
  (bodySwitch (Body r) (init (completed r))).1 = Next buf →
  (∃ m u, EvNewRequest m u buf ∈ events (Submit w r)) ∧
  (∃ h, Headers (final (Submit w r)) = Some h ∧
        h !! "Content-Length" = Some (strconv.Itoa (len buf))) ∧
  (∀ rq, EvDo rq ∈ events (Submit w r) →
     ReqBody rq = buf ∧
     ("Content-Length", strconv.Itoa (len buf)) ∈ Header rq).
Proof.
  intros Hq Hbuf. split; [|split].
  - pose proof (Submit_spec w r Hq) as Hs.
    inversion Hs as [x s Hp Heq|rq0 s x s' Hp He Heq]; simpl.
    + inversion Hp; subst; simpl; [congruence|].
      assert (buf0 = buf) as -> by congruence.
      eexists _, _. apply elem_of_app; left. apply elem_of_app; right.
      by apply list_elem_of_singleton.
    + destruct (exchanged_trace _ _ _ _ _ He) as (_ & tail & -> & _).
      inversion Hp; subst; simpl.
      assert (buf0 = buf) as -> by congruence.
      eexists _, _. rewrite <- !app_assoc.
      apply elem_of_app; right. by left.
  - pose proof (Submit_spec w r Hq) as Hs.
    inversion Hs as [x s Hp Heq|rq0 s x s' Hp He Heq]; simpl.
    + inversion Hp; subst; simpl; [congruence|].
      assert (buf0 = buf) as -> by congruence. eauto.
    + destruct (exchanged_Headers _ _ _ _ _ He) as [-> _].
      inversion Hp; subst; simpl.
      assert (buf0 = buf) as -> by congruence. eauto.
  - intros rq Hin.
    destruct (Submit_Do w r rq Hin) as (s & x & s' & _ & Hp & _ & _).
    inversion Hp; subst.
    assert (buf0 = buf) as -> by congruence.
    destruct (built_spec w (completed r) h buf) as (_ & _ & Hb & Hh).
    split; [done|]. by apply (Hh "Content-Length").
Qed.

(** ** The claims *)

(** The test [ExampleFetch], second request: the bare integer literal is
    decoded into the integer destination. *)
Example fetch_int_ok :
  Submit (server 200 "200 OK" "20220322075441")
    (fetch_int "http://127.0.0.1:8080" (BodyString "")) =
  {| final :=
       {| Method := "GET"; URL := "http://127.0.0.1:8080?"; Query := ∅;
          Headers := Some {["Content-Length" := "0"]}; Body := BodyString "";
          Data := int_ptr 20220322075441; Context := None;
          Resp := RespPtr (Some {| Status := "200 OK"; StatusCode := 200;
                    RespBody := {| content := "20220322075441";
                                   failure := None |} |}) |};
     exit := Returned None;
     events :=
       [EvNewRequest "GET" "http://127.0.0.1:8080?" "";
        EvDo (fetch_int_request "");
        EvReadAll {| content := "20220322075441"; failure := None |};
        EvUnmarshal "20220322075441" (int_ptr 0);
        EvCancel] |}.
Proof. vm_compute. reflexivity. Qed.

(** A response with status 200 whose body is no number, for an integer
    destination: [Submit] returns the error of the codec and the
    destination is as it was. *)
Example fetch_int_refused :
  let res := Submit (server 200 "200 OK" "abc")
               (fetch_int "http://127.0.0.1:8080" (BodyString "")) in
  exit res =
    Returned (Some (OtherError
      "yaml: unmarshal errors: cannot unmarshal !!str into int")) ∧
  Data (final res) = int_ptr 0 ∧
  events res =
    [EvNewRequest "GET" "http://127.0.0.1:8080?" "";
     EvDo (fetch_int_request "");
     EvReadAll {| content := "abc"; failure := None |};
     EvUnmarshal "abc" (int_ptr 0);
     EvCancel].
Proof. vm_compute. repeat split; reflexivity. Qed.

(** C1, as the claim states it, does not hold: a response with status 200
    whose body the codec refuses makes [Submit] return the codec's
    error. *)
Lemma status_decides_outcome_refuted : ¬ status_decides_outcome.
Proof.
  intros H.
  destruct (H (server 200 "200 OK" "abc")
              (fetch_int "http://127.0.0.1:8080" (BodyString ""))
              (fetch_int_request "")
              {| Status := "200 OK"; StatusCode := 200;
                 RespBody := {| content := "abc"; failure := None |} |})
    as [H2 _].
  - apply list_elem_of_In. vm_compute. auto.
  - reflexivity.
  - destruct H2 as [H2 _]; [unfold is_2xx; simpl; lia|].
    vm_compute in H2. discriminate.
Qed.

(** C2: when the URL of the request contains a [?], [Submit] returns the
    [ReqSyntaxError] of line 130 and makes no call to the outside world: no
    request is built and the client is not called. *)
Theorem Submit_query_separator w r a b :
  URL r = a +:+ "?" +:+ b →
  exit (Submit w r) =
    Returned (Some (ReqSyntaxError "URL contains '?' (use Query instead)")) ∧
  events (Submit w r) = [] ∧
  URL (final (Submit w r)) = URL r.
Proof.
  intros Hu.
  rewrite (Submit_rejected w r) by (rewrite Hu; apply Index_found).
  simpl. by destruct (String.eqb (Method r) ""), r.
Qed.

Lemma Submit_query_separator_witness :
  URL (fetch_int "http://127.0.0.1:8080/?a=b" BodyNil) =
    "http://127.0.0.1:8080/" +:+ "?" +:+ "a=b" ∧
  events (Submit unreachable (fetch_int "http://127.0.0.1:8080/?a=b" BodyNil))
    = [].
Proof.
  split; [reflexivity|].
  exact (proj1 (proj2
    (Submit_query_separator unreachable
       (fetch_int "http://127.0.0.1:8080/?a=b" BodyNil)
       "http://127.0.0.1:8080/" "a=b" eq_refl))).
Defined.

(** C3 fails on the code: a body of type [int], which no case of the
    switch of line 141 names, is formatted by the default case and sent;
    [Submit] builds the request, calls the client and returns no error. *)
Theorem Submit_int_body_is_sent :
  let res := Submit (server 200 "200 OK" "")
               (fetch_int "http://127.0.0.1:8080" int_42) in
  exit res = Returned None ∧
  events res =
    [EvNewRequest "GET" "http://127.0.0.1:8080?" "42";
     EvDo (fetch_int_request "42");
     EvReadAll {| content := ""; failure := None |};
     EvCancel].
Proof. vm_compute. split; reflexivity. Qed.

(** The only [ReqSyntaxError] of [Submit]'s own is the one for a URL with
    a [?]: when no marshalling call on the body, no library function and no
    client returns one, [Submit] returns one only for such a URL. *)
Lemma Submit_syntax_error_only_query w r :
  (∀ e, (bodySwitch (Body r) (init (completed r))).1 =
          Leave (Returned (Some e)) → ¬ is_syntax_error (Some e)) →
  (∀ m u, ¬ is_syntax_error (NewRequest_err w m u)) →
  (∀ rq, ¬ is_syntax_error (Client_Do w rq).2) →
  (∀ b d e, (yaml_Unmarshal w b d).2 = Gives e → ¬ is_syntax_error e) →
  (∀ msg, exit (Submit w r) = Returned (Some (ReqSyntaxError msg)) →
          0 <= strings.Index (URL r) "?").
Proof.
  intros Hbody Hnew Hdo Hyaml msg Hexit.
  destruct (Z_lt_le_dec (strings.Index (URL r) "?") 0) as [Hq|Hq]; [|done].
  exfalso. pose proof (Submit_spec w r Hq) as Hs.
  inversion Hs as [x s Hp Heq|rq s x s' Hp He Heq];
    rewrite <- Heq in Hexit; simpl in Hexit; subst x.
  - inversion Hp as [h logs e Hlogs Hb|h logs buf e Hlogs _ _ Hn|]; subst.
    + apply (Hbody _ Hb). by eexists.
    + apply (Hnew (Method (completed r)) (URL (completed r))).
      rewrite Hn. by eexists.
  - inversion He as [res e Hd|?|res Hd|res m Hd| |res f s'' Hd _ _ _ Hdec];
      subst.
    + apply (Hdo rq). rewrite Hd. by eexists.
    + clear Hs Heq He. destruct f as [[]|x]; [discriminate|].
      match goal with H : _ = Returned _ |- _ => simpl in H; subst x end.
      inversion Hdec as [[Hx Hs']| | |].
      destruct (yaml_Unmarshal w _ _).2 as [e|m] eqn:Ey; [|discriminate].
      apply (Hyaml _ _ _ Ey). simpl in Hx. injection Hx as ->. by eexists.
Qed.

(** C4: the switch on the body takes the first case that matches, in the
    order form values, bytes, string, [yaml.Marshaler], [json.Marshaler],
    [encoding.TextMarshaler], [fmt.Stringer], default.  Form values are
    URL-encoded and set the content type; bytes are logged as
    unimplemented and give no body; a string is taken as it is; a
    marshaller gives what its marshalling call gives; in particular a
    [json.Marshaler] that is no [yaml.Marshaler] is marshalled as JSON,
    whatever else it implements. *)
Theorem bodySwitch_priority s h :
  Headers (req s) = Some h →
  (∀ v, bodySwitch (BodyValues v) s =
     (Next (url.Encode v),
      {| req := set_Headers
                  (Some (<["Content-Type" :=
                           "application/x-www-form-urlencoded"]> h)) (req s);
         trace := trace s; deferred := deferred s |})) ∧
  (∀ b, bodySwitch (BodyBytes b) s =
     (Next "",
      {| req := req s;
         trace := trace s ++
                  [EvLog "planned, but unimplemented, would uuencode"];
         deferred := deferred s |})) ∧
  (∀ v, bodySwitch (BodyString v) s = (Next v, s)) ∧
  (∀ d m, yaml_Marshal d = Some m →
     bodySwitch (BodyOther d) s = (outcome m, s)) ∧
  (∀ d m, yaml_Marshal d = None → json_Marshal d = Some m →
     bodySwitch (BodyOther d) s = (outcome m, s)) ∧
  (∀ d m, yaml_Marshal d = None → json_Marshal d = None →
     MarshalText d = Some m →
     bodySwitch (BodyOther d) s = (outcome m, s)) ∧
  (∀ d str, yaml_Marshal d = None → json_Marshal d = None →
     MarshalText d = None → Stringer d = Some str →
     bodySwitch (BodyOther d) s = (Next str, s)) ∧
  (∀ d, yaml_Marshal d = None → json_Marshal d = None →
     MarshalText d = None → Stringer d = None →
     bodySwitch (BodyOther d) s = (Next (Sprintf_v d), s)).
Proof.
  intros Hh.
  assert (Hm : ∀ m, marshalled m s = (outcome m, s))
    by (by intros [byt [err|]]).
  repeat apply conj.
  - intros v. unfold bodySwitch. monad_unfold. by rewrite Hh.
  - reflexivity.
  - reflexivity.
  - intros d m Hy. simpl. by rewrite Hy.
  - intros d m Hy Hj. simpl. by rewrite Hy, Hj.
  - intros d m Hy Hj Ht. simpl. by rewrite Hy, Hj, Ht.
  - intros d str Hy Hj Ht Hs. simpl. by rewrite Hy, Hj, Ht, Hs.
  - intros d Hy Hj Ht Hs. simpl. by rewrite Hy, Hj, Ht, Hs.
Qed.

Lemma bodySwitch_priority_witness :
  Headers (req (init (completed (fetch_int "http://127.0.0.1:8080" BodyNil))))
    = Some ∅ ∧
  bodySwitch (BodyOther json_and_stringer)
    (init (completed (fetch_int "http://127.0.0.1:8080" BodyNil))) =
  (Next "{}", init (completed (fetch_int "http://127.0.0.1:8080" BodyNil))).
Proof.
  split; [reflexivity|].
  exact (proj1 (proj2 (proj2 (proj2 (proj2
    (bodySwitch_priority
       (init (completed (fetch_int "http://127.0.0.1:8080" BodyNil))) ∅
       eq_refl)))))
    json_and_stringer ("{}", None) eq_refl eq_refl).
Defined.

(** C5: when the body serializes to [buf], [Submit] builds a request with
    body [buf] and sets the [Content-Length] header, on the receiver and on
    the request given to the client, to the decimal length of [buf]; when
    [buf] is empty the request is built with an empty body and the header
    is [0]. *)
Theorem Submit_content_length w r buf :
  strings.Index (URL r) "?" < 0 →
  serializes_to (Body r) buf →
  (∃ m u, EvNewRequest m u buf ∈ events (Submit w r)) ∧
  (∃ h, Headers (final (Submit w r)) = Some h ∧
        h !! "Content-Length" = Some (strconv.Itoa (len buf)) ∧
        (buf = "" → h !! "Content-Length" = Some "0")) ∧
  (∀ rq, EvDo rq ∈ events (Submit w r) →
     ReqBody rq = buf ∧
     ("Content-Length", strconv.Itoa (len buf)) ∈ Header rq).
Proof.
  intros Hq Hser.
  destruct (Submit_serialized w r buf Hq) as (Hn & (h & Hh & Hl) & Hd).
  { apply (Hser _ (default ∅ (Headers r))). reflexivity. }
  split; [done|]. split; [|done].
  exists h. split; [done|]. split; [done|]. by intros ->.
Qed.

Lemma Submit_content_length_witness :
  strings.Index (URL (fetch_int "http://127.0.0.1:8080" (BodyBytes "raw")))
    "?" < 0 ∧
  serializes_to (Body (fetch_int "http://127.0.0.1:8080" (BodyBytes "raw")))
    "" ∧
  ∃ m u, EvNewRequest m u ""
    ∈ events (Submit unreachable
                (fetch_int "http://127.0.0.1:8080" (BodyBytes "raw"))).
Proof.
  assert (Hq : strings.Index
    (URL (fetch_int "http://127.0.0.1:8080" (BodyBytes "raw"))) "?" < 0)
    by (vm_compute; reflexivity).
  assert (Hs : serializes_to
    (Body (fetch_int "http://127.0.0.1:8080" (BodyBytes "raw"))) "")
    by (intros s h _; reflexivity).
  split; [exact Hq|]. split; [exact Hs|].
  exact (proj1 (Submit_content_length unreachable _ "" Hq Hs)).
Defined.

(** C6: whenever [Submit] has called the client, the receiver holds what
    the client gave as its response, however the call and the function
    ended. *)
Theorem Submit_records_response w r rq :
  EvDo rq ∈ events (Submit w r) →
  Resp (final (Submit w r)) = RespPtr (Client_Do w rq).1.
Proof.
  intros Hin.
  destruct (Submit_Do w r rq Hin) as (s & x & s' & _ & _ & He & ->).
  destruct (exchanged_req _ _ _ _ _ He) as [d ->]. reflexivity.
Qed.

Lemma Submit_records_response_witness :
  EvDo (fetch_int_request "")
    ∈ events (Submit unreachable
                (fetch_int "http://127.0.0.1:8080" (BodyString ""))) ∧
  Resp (final (Submit unreachable
                 (fetch_int "http://127.0.0.1:8080" (BodyString "")))) =
    RespPtr None.
Proof.
  assert (Hin : EvDo (fetch_int_request "")
    ∈ events (Submit unreachable
                (fetch_int "http://127.0.0.1:8080" (BodyString ""))))
    by (apply list_elem_of_In; vm_compute; auto).
  split; [exact Hin|].
  exact (Submit_records_response unreachable _ _ Hin).
Defined.

(** C7: when the call of the client gives an error, [Submit] returns this
    very error. *)
Theorem Submit_transport_error w r rq e :
  EvDo rq ∈ events (Submit w r) →
  (Client_Do w rq).2 = Some e →
  exit (Submit w r) = Returned (Some e).
Proof.
  intros Hin Herr.
  destruct (Submit_Do w r rq Hin) as (s & x & s' & _ & _ & He & ->).
  simpl. inversion He; subst;
    match goal with H : Client_Do _ _ = _ |- _ => rewrite H in Herr end;
    simpl in Herr; congruence.
Qed.

Lemma Submit_transport_error_witness :
  EvDo (fetch_int_request "")
    ∈ events (Submit unreachable
                (fetch_int "http://127.0.0.1:8080" (BodyString ""))) ∧
  (Client_Do unreachable (fetch_int_request "")).2 =
    Some (OtherError "dial tcp 127.0.0.1:9: connect: connection refused") ∧
  exit (Submit unreachable
          (fetch_int "http://127.0.0.1:8080" (BodyString ""))) =
    Returned
      (Some (OtherError "dial tcp 127.0.0.1:9: connect: connection refused")).
Proof.
  assert (Hin : EvDo (fetch_int_request "")
    ∈ events (Submit unreachable
                (fetch_int "http://127.0.0.1:8080" (BodyString ""))))
    by (apply list_elem_of_In; vm_compute; auto).
  split; [exact Hin|]. split; [reflexivity|].
  exact (Submit_transport_error unreachable _ _ _ Hin eq_refl).
Defined.

(** C8: when the response has a status in [200,300) and an empty body,
    [Submit] returns no error, the destination is the one the caller gave,
    and after the call of the client the body is read and nothing else is
    done but the deferred release of the deadline: no decoding, no
    logging. *)
Theorem Submit_empty_body w r rq res :
  EvDo rq ∈ events (Submit w r) →
  Client_Do w rq = (Some res, None) →
  is_2xx res →
  RespBody res = {| content := ""; failure := None |} →
  exit (Submit w r) = Returned None ∧
  Data (final (Submit w r)) = Data r ∧
  ∃ before,
    events (Submit w r) =
      before ++ [EvDo rq; EvReadAll (RespBody res)] ++
      match Context r with None => [EvCancel] | Some _ => [] end ∧
    ∀ e, e ∈ before → is_log e ∨ ∃ m u b, e = EvNewRequest m u b.
Proof.
  intros Hin Hdo H2 Hbody.
  destruct (Submit_Do w r rq Hin) as (s & x & s' & _ & Hp & He & Heq).
  rewrite Heq. clear Hin Heq.
  pose proof (prepared_Data _ _ _ _ Hp) as Hdata. simpl.
  inversion He; subst; same_response Hdo; try contradiction;
    try match goal with
        | H : failure (RespBody _) = Some _ |- _ =>
            rewrite Hbody in H; discriminate H
        | H : content (RespBody _) ≠ "" |- _ =>
            rewrite Hbody in H; exfalso; apply H; reflexivity
        end.
  split; [reflexivity|]. split; [exact Hdata|].
  inversion Hp as [| |h logs buf Hlogs _ _]; subst; simpl.
  exists (logs ++ [EvNewRequest (Method (completed r)) (URL (completed r)) buf]).
  split; [by rewrite <- !app_assoc|].
  intros ev [Hev| ->%list_elem_of_singleton]%elem_of_app; [|eauto 6].
  left. eapply Forall_forall; eauto.
Qed.

Lemma Submit_empty_body_witness :
  EvDo (fetch_int_request "")
    ∈ events (Submit (server 204 "204 No Content" "")
                (fetch_int "http://127.0.0.1:8080" (BodyString ""))) ∧
  Data (final (Submit (server 204 "204 No Content" "")
                 (fetch_int "http://127.0.0.1:8080" (BodyString "")))) =
    int_ptr 0.
Proof.
  assert (Hin : EvDo (fetch_int_request "")
    ∈ events (Submit (server 204 "204 No Content" "")
                (fetch_int "http://127.0.0.1:8080" (BodyString ""))))
    by (apply list_elem_of_In; vm_compute; auto).
  split; [exact Hin|].
  refine (proj1 (proj2
    (Submit_empty_body (server 204 "204 No Content" "") _ _ _ Hin eq_refl
       _ eq_refl))).
  unfold is_2xx. simpl. lia.
Defined.

(** C9: when the URL of the request has no [?], [Submit] sets it to the
    URL followed by [?] and the encoded query, also when the query is
    empty, the URL then ending in [?]; this is the URL of the request it
    builds. *)
Theorem Submit_appends_query w r :
  strings.Index (URL r) "?" < 0 →
  URL (final (Submit w r)) = URL r +:+ "?" +:+ url.Encode (Query r) ∧
  (Query r = ∅ → URL (final (Submit w r)) = URL r +:+ "?") ∧
  (∀ m u b, EvNewRequest m u b ∈ events (Submit w r) →
     u = URL r +:+ "?" +:+ url.Encode (Query r)).
Proof.
  intros Hq.
  assert (Hu : URL (completed r) = URL r +:+ "?" +:+ url.Encode (Query r)).
  { unfold completed. by destruct (String.eqb (Method r) ""), r. }
  pose proof (Submit_spec w r Hq) as Hs.
  assert (Hfin : URL (final (Submit w r)) =
                 URL r +:+ "?" +:+ url.Encode (Query r)).
  { inversion Hs as [x s Hp Heq|rq0 s x s' Hp He Heq]; simpl.
    - inversion Hp; subst; simpl; exact Hu.
    - destruct (exchanged_Headers _ _ _ _ _ He) as [_ ->].
      inversion Hp; subst; simpl; exact Hu. }
  split; [exact Hfin|]. split.
  - intros Hempty. rewrite Hfin, Hempty, Encode_empty. reflexivity.
  - intros m u b Hin.
    inversion Hs as [x s Hp Heq|rq0 s x s' Hp He Heq];
      rewrite <- Heq in Hin; simpl in Hin.
    + by eapply prepared_requests.
    + destruct (exchanged_trace _ _ _ _ _ He) as (Hd & tail & Ht & Htail).
      rewrite Ht, Hd, <- app_assoc in Hin.
      apply elem_of_app in Hin as [Hin|Hin].
      { eapply prepared_requests; [exact Hp|]. apply elem_of_app. by left. }
      apply elem_of_app in Hin as [Hin|Hin].
      { apply elem_of_cons in Hin as [Hin|Hin]; [discriminate|].
        destruct (Htail _ Hin) as [[? ?]|[[? ?]|(? & ? & ?)]]; discriminate. }
      eapply prepared_requests; [exact Hp|]. apply elem_of_app. by right.
Qed.

Lemma Submit_appends_query_witness :
  strings.Index (URL (fetch_int "http://127.0.0.1:8080" BodyNil)) "?" < 0 ∧
  URL (final (Submit unreachable (fetch_int "http://127.0.0.1:8080" BodyNil)))
    = "http://127.0.0.1:8080" +:+ "?".
Proof.
  assert (Hq : strings.Index
    (URL (fetch_int "http://127.0.0.1:8080" BodyNil)) "?" < 0)
    by (vm_compute; reflexivity).
  split; [exact Hq|].
  exact (proj1 (proj2 (Submit_appends_query unreachable
           (fetch_int "http://127.0.0.1:8080" BodyNil) Hq)) eq_refl).
Defined.

(** C10: a request whose body is nil is sent with the five bytes [<nil>]
    as its body and a [Content-Length] of [5]. *)
Theorem Submit_nil_body w r :
  Body r = BodyNil →
  strings.Index (URL r) "?" < 0 →
  (∃ m u, EvNewRequest m u "<nil>" ∈ events (Submit w r)) ∧
  (∃ h, Headers (final (Submit w r)) = Some h ∧
        h !! "Content-Length" = Some "5") ∧
  (∀ rq, EvDo rq ∈ events (Submit w r) →
     ReqBody rq = "<nil>" ∧ ("Content-Length", "5") ∈ Header rq).
Proof.
  intros Hb Hq. apply (Submit_serialized w r "<nil>" Hq). by rewrite Hb.
Qed.

Lemma Submit_nil_body_witness :
  Body (fetch_int "http://127.0.0.1:8080" BodyNil) = BodyNil ∧
  strings.Index (URL (fetch_int "http://127.0.0.1:8080" BodyNil)) "?" < 0 ∧
  ∃ m u, EvNewRequest m u "<nil>"
    ∈ events (Submit (server 200 "200 OK" "")
                (fetch_int "http://127.0.0.1:8080" BodyNil)).
Proof.
  assert (Hq : strings.Index
    (URL (fetch_int "http://127.0.0.1:8080" BodyNil)) "?" < 0)
    by (vm_compute; reflexivity).
  split; [reflexivity|]. split; [exact Hq|].
  exact (proj1 (Submit_nil_body (server 200 "200 OK" "")
                  (fetch_int "http://127.0.0.1:8080" BodyNil) eq_refl Hq)).
Defined.

(** * Further properties of [Submit] *)

(** ** The first half, in full *)

(** The state the switch on the body leaves. *)
Lemma bodySwitch_state v s h :
  Headers (req s) = Some h →
  (bodySwitch v s).2 =
    {| req := set_Headers (Some (body_headers v h)) (req s);
       trace := trace s ++ body_logs v; deferred := deferred s |}.
Proof.
  intros Hh. destruct s as [r t d]; simpl in *.
  assert (Hid : {| req := r; trace := t; deferred := d |} =
                {| req := set_Headers (Some h) r; trace := t ++ [];
                   deferred := d |})
    by (by rewrite app_nil_r, (set_Headers_id _ _ Hh)).
  destruct v as [|v|b|str|d0]; unfold bodySwitch; monad_unfold; simpl;
    try exact Hid.
  - rewrite Hh. simpl. by rewrite app_nil_r.
  - by rewrite (set_Headers_id _ _ Hh).
  - destruct (yaml_Marshal d0) as [[? [?|]]|]; [| |
      destruct (json_Marshal d0) as [[? [?|]]|]; [| |
      destruct (MarshalText d0) as [[? [?|]]|]; [| |
      destruct (Stringer d0) as [?|]]]]; exact Hid.
Qed.

(** The switch on the body ends in the same way in every state whose
    header map is not nil. *)
Lemma bodySwitch_value v s s' h h' :
  Headers (req s) = Some h → Headers (req s') = Some h' →
  (bodySwitch v s).1 = (bodySwitch v s').1.
Proof.
  intros Hh Hh'. destruct s as [r t d], s' as [r' t' d']; simpl in *.
  destruct v as [|v|b|str|d0]; unfold bodySwitch; monad_unfold; simpl;
    try reflexivity.
  - by rewrite Hh, Hh'.
  - destruct (yaml_Marshal d0) as [[? [?|]]|]; [| |
      destruct (json_Marshal d0) as [[? [?|]]|]; [| |
      destruct (MarshalText d0) as [[? [?|]]|]; [| |
      destruct (Stringer d0) as [?|]]]]; reflexivity.
Qed.

(** How the first half ends on a URL without [?], state and all. *)
Lemma outbound_explicit w r :
  strings.Index (URL r) "?" < 0 →
  outbound w (init r) =
    match (bodySwitch (Body r) (init (completed r))).1 with
    | Leave x => (Leave x, serialized r)
    | Next buf =>
        match NewRequest_err w (Method (completed r)) (URL (completed r)) with
        | Some e => (Leave (Returned (Some e)), requested r buf [])
        | None =>
            (Next (built w (completed r) (sent_headers r buf) buf),
             requested r buf
               match Context r with None => [EvCancel] | Some _ => [] end)
        end
    end.
Proof.
  intros Hq. rewrite (outbound_eq w r Hq).
  pose proof (bodySwitch_state (Body r) (init (completed r)) _
                (completed_Headers r)) as Hst.
  unfold bind at 1.
  destruct (bodySwitch (Body r) (init (completed r))) as [f s1].
  simpl in Hst. subst s1. simpl.
  destruct f as [buf|x]; [|reflexivity].
  monad_unfold. simpl.
  unfold requested, sent_headers, built, serialized, completed.
  destruct r as [m u q h b d c rs]. simpl.
  destruct (String.eqb m ""); simpl;
    destruct (NewRequest_err w _ _); simpl; try reflexivity;
    destruct c; reflexivity.
Qed.

(** ** The ways a call ends, state and all *)

Lemma Submit_unfold w r :
  Submit w r =
    match outbound w (init r) with
    | (Leave x, s) => ended x s
    | (Next rq, s) =>
        match exchange w rq s with
        | (Leave x, s') => ended x s'
        | (Next _, s') => ended (Returned None) s'
        end
    end.
Proof.
  unfold Submit, run, Submit_body, bind, ended.
  destruct (outbound w (init r)) as [[rq|x] s]; [|reflexivity].
  by destruct (exchange w rq s) as [[[]|x] s'].
Qed.

(** A marshalling call on the body fails: the function is left before any
    request is built. *)
Lemma Submit_marshal_failed w r x :
  strings.Index (URL r) "?" < 0 →
  (bodySwitch (Body r) (init (completed r))).1 = Leave x →
  Submit w r = ended x (serialized r).
Proof.
  intros Hq Hb. rewrite Submit_unfold, (outbound_explicit w r Hq), Hb.
  reflexivity.
Qed.

(** [http.NewRequest] refuses the method or the URL: the function is left
    before the client is called. *)
Lemma Submit_request_failed w r buf e :
  strings.Index (URL r) "?" < 0 →
  (bodySwitch (Body r) (init (completed r))).1 = Next buf →
  NewRequest_err w (Method (completed r)) (URL (completed r)) = Some e →
  Submit w r = ended (Returned (Some e)) (requested r buf []).
Proof.
  intros Hq Hb Hn. rewrite Submit_unfold, (outbound_explicit w r Hq), Hb, Hn.
  reflexivity.
Qed.

(** The request is built: the client is called with it, and the call ends
    as the second half ends. *)
Lemma Submit_exchanged w r buf :
  strings.Index (URL r) "?" < 0 →
  (bodySwitch (Body r) (init (completed r))).1 = Next buf →
  NewRequest_err w (Method (completed r)) (URL (completed r)) = None →
  ∃ x s',
    exchanged w (built w (completed r) (sent_headers r buf) buf)
      (requested r buf
         match Context r with None => [EvCancel] | Some _ => [] end)
      (Leave x, s') ∧
    Submit w r = ended x s'.
Proof.
  intros Hq Hb Hn. rewrite Submit_unfold, (outbound_explicit w r Hq), Hb, Hn.
  pose proof (exchange_spec w (built w (completed r) (sent_headers r buf) buf)
    (requested r buf
       match Context r with None => [EvCancel] | Some _ => [] end)) as He.
  destruct (exchange w _ _) as [[[]|x] s']; [inversion He|eauto].
Qed.

(** The three ways above are all there is on a URL without [?]. *)
Lemma Submit_cases w r :
  strings.Index (URL r) "?" < 0 →
  (∃ e, (bodySwitch (Body r) (init (completed r))).1 =
          Leave (Returned (Some e)) ∧
        Submit w r = ended (Returned (Some e)) (serialized r)) ∨
  (∃ buf e, (bodySwitch (Body r) (init (completed r))).1 = Next buf ∧
     NewRequest_err w (Method (completed r)) (URL (completed r)) = Some e ∧
     Submit w r = ended (Returned (Some e)) (requested r buf [])) ∨
  (∃ buf x s', (bodySwitch (Body r) (init (completed r))).1 = Next buf ∧
     NewRequest_err w (Method (completed r)) (URL (completed r)) = None ∧
     exchanged w (built w (completed r) (sent_headers r buf) buf)
       (requested r buf
          match Context r with None => [EvCancel] | Some _ => [] end)
       (Leave x, s') ∧
     Submit w r = ended x s').
Proof.
  intros Hq.
  destruct (bodySwitch_spec (Body r) (init (completed r)) _
              (completed_Headers r)) as (f & logs & h' & Hb & _ & Hf).
  assert (Hfst : (bodySwitch (Body r) (init (completed r))).1 = f)
    by (by rewrite Hb).
  destruct Hf as [[buf ->]|[e ->]].
  - destruct (NewRequest_err w (Method (completed r)) (URL (completed r)))
      as [e|] eqn:Hn.
    + right; left. exists buf, e. split; [done|]. split; [done|].
      by apply Submit_request_failed.
    + right; right.
      destruct (Submit_exchanged w r buf Hq Hfst Hn) as (x & s' & He & Heq).
      exists buf, x, s'. auto.
  - left. exists e. split; [done|]. by apply Submit_marshal_failed.
Qed.

(** The events of a body switch are logging calls. *)
Lemma body_logs_log v e : e ∈ body_logs v → is_log e.
Proof.
  destruct v; simpl; try (by intros ?%elem_of_nil).
  intros ->%list_elem_of_singleton. by eexists.
Qed.

(** When the client has been called, the call went the third way, and the
    request is the one built from the completed receiver. *)
Lemma Submit_Do_built w r rq :
  EvDo rq ∈ events (Submit w r) →
  ∃ buf x s',
    strings.Index (URL r) "?" < 0 ∧
    (bodySwitch (Body r) (init (completed r))).1 = Next buf ∧
    NewRequest_err w (Method (completed r)) (URL (completed r)) = None ∧
    rq = built w (completed r) (sent_headers r buf) buf ∧
    exchanged w rq
      (requested r buf
         match Context r with None => [EvCancel] | Some _ => [] end)
      (Leave x, s') ∧
    Submit w r = ended x s'.
Proof.
  intros Hin.
  destruct (Submit_Do w r rq Hin) as (_ & _ & _ & Hq & _ & _ & _).
  destruct (Submit_cases w r Hq)
    as [(e & _ & Heq)|[(buf & e & _ & _ & Heq)
       |(buf & x & s' & Hb & Hn & He & Heq)]]; rewrite Heq in Hin.
  - exfalso. unfold ended, serialized in Hin. simpl in Hin.
    rewrite app_nil_r in Hin. apply body_logs_log in Hin as [? ?].
    discriminate.
  - exfalso. unfold ended, requested in Hin. simpl in Hin.
    rewrite app_nil_r in Hin.
    apply elem_of_app in Hin as [Hin|Hin%list_elem_of_singleton];
      [|discriminate].
    apply body_logs_log in Hin as [? ?]. discriminate.
  - assert (rq = built w (completed r) (sent_headers r buf) buf) as ->;
      [|by exists buf, x, s'].
    destruct (exchanged_trace _ _ _ _ _ He) as (Hd & tail & Ht & Htail).
    unfold ended in Hin. simpl in Hin. rewrite Ht, Hd in Hin. simpl in Hin.
    rewrite <- !app_assoc in Hin.
    apply elem_of_app in Hin as [Hin|Hin].
    { apply body_logs_log in Hin as [? ?]. discriminate. }
    apply elem_of_cons in Hin as [Hin|Hin]; [discriminate|].
    apply elem_of_app in Hin as [Hin|Hin].
    { apply elem_of_cons in Hin as [Hin|Hin]; [by injection Hin|].
      destruct (Htail _ Hin) as [[? ?]|[[? ?]|(? & ? & ?)]]; discriminate. }
    destruct (Context r); [by apply elem_of_nil in Hin|].
    apply list_elem_of_singleton in Hin. discriminate.
Qed.

(** ** Fields of the completed receiver *)

Lemma completed_fields r :
  Method (completed r) = method_sent r ∧
  URL (completed r) = URL r +:+ "?" +:+ url.Encode (Query r) ∧
  Query (completed r) = Query r ∧ Body (completed r) = Body r ∧
  Data (completed r) = Data r ∧ Context (completed r) = Context r ∧
  Resp (completed r) = Resp r.
Proof.
  unfold completed, method_sent.
  by destruct (String.eqb (Method r) ""), r.
Qed.

(** What the second half leaves of the receiver, field by field. *)
Lemma exchanged_fields w rq s x s' :
  exchanged w rq s (Leave x, s') →
  Method (req s') = Method (req s) ∧ URL (req s') = URL (req s) ∧
  Query (req s') = Query (req s) ∧ Headers (req s') = Headers (req s) ∧
  Body (req s') = Body (req s) ∧ Context (req s') = Context (req s) ∧
  Resp (req s') = RespPtr (Client_Do w rq).1.
Proof. intros [d ->]%exchanged_req. done. Qed.

(** What follows the call of the client: nothing, the read of the body, or
    the read followed by one logging call or by one decoding. *)
Lemma exchanged_tail w rq s x s' :
  exchanged w rq s (Leave x, s') →
  deferred s' = deferred s ∧
  ∃ tail, trace s' = trace s ++ EvDo rq :: tail ∧
    (tail = [] ∨
     ∃ res, Client_Do w rq = (Some res, None) ∧ is_2xx res ∧
       (tail = [EvReadAll (RespBody res)] ∨
        (∃ msg, tail = [EvReadAll (RespBody res); EvLog msg]) ∨
        tail = [EvReadAll (RespBody res);
                EvUnmarshal (content (RespBody res)) (Data (req s))])).
Proof.
  intros He.
  inversion He as [res e Hd|Hd|res Hd Hn|res msg Hd H2 Hf|res Hd H2 Hf Hc
                  |res f s'' Hd H2 Hf Hc Hdec]; subst; simpl.
  1-3: split; [done|]; exists []; split; [done|]; by left.
  1-2: split; [done|]; exists [EvReadAll (RespBody res)];
       rewrite <- app_assoc; split; [done|]; right; exists res; auto.
  inversion Hdec; subst; simpl; (split; [done|]).
  - eexists [_; _]. rewrite <- !app_assoc. split; [done|].
    right; exists res. auto 6.
  - exists [EvReadAll (RespBody res)]. rewrite <- !app_assoc.
    split; [done|]. right; exists res. auto.
  - eexists [_; EvLog msg]. rewrite <- !app_assoc. split; [done|].
    right; exists res. split; [done|]. split; [done|]. right; left.
    by exists msg.
  - exists [EvReadAll (RespBody res)]. rewrite <- !app_assoc.
    split; [done|]. right; exists res. auto.
Qed.

(** A body whose marshalling fails is none of the bodies that log. *)
Lemma body_fails_no_log v s h x :
  Headers (req s) = Some h →
  (bodySwitch v s).1 = Leave x → body_logs v = [].
Proof.
  intros Hh. by destruct v as [|v|b|str|d].
Qed.

Lemma body_logs_Forall v : Forall is_log (body_logs v).
Proof. apply Forall_forall. intros e. apply body_logs_log. Qed.

(** An event of a call is looked for in each part of its trace. *)
Ltac in_events H :=
  unfold ended, requested, read, called, serialized, release in H;
  cbn [events trace deferred] in H;
  repeat match type of H with
         | _ ∈ _ ++ _ => apply elem_of_app in H as [H|H]
         | _ ∈ _ :: _ => apply elem_of_cons in H as [H|H]
         | _ ∈ [] => by apply elem_of_nil in H
         | _ ∈ body_logs _ => apply body_logs_log in H as [? H]
         | _ ∈ match Context ?r with _ => _ end => destruct (Context r)
         | _ = _ => discriminate H
         end.

(** ** The calls a submission makes *)

(** X1: the calls [Submit] makes to the outside world follow one
    protocol.  It makes none; or it logs and builds one request; or it
    logs, builds one request, calls the client once with a request of the
    same method, URL and body, then at most reads the body and logs or
    decodes once, and last releases the deadline it set.  The method is
    [GET] unless the caller named one, the URL is the caller's followed by
    [?] and the encoded query. *)
Theorem Submit_protocol w r :
  events (Submit w r) = [] ∨
  ∃ logs buf,
    Forall is_log logs ∧
    let new := EvNewRequest (method_sent r)
                 (URL r +:+ "?" +:+ url.Encode (Query r)) buf in
    events (Submit w r) = logs ++ [new] ∨
    ∃ rq tail,
      ReqMethod rq = method_sent r ∧
      ReqURL rq = URL r +:+ "?" +:+ url.Encode (Query r) ∧
      ReqBody rq = buf ∧
      events (Submit w r) = logs ++ [new; EvDo rq] ++ tail ++ release r ∧
      (tail = [] ∨
       ∃ b, tail = [EvReadAll b] ∨
            (∃ msg, tail = [EvReadAll b; EvLog msg]) ∨
            (∃ bytes, tail = [EvReadAll b; EvUnmarshal bytes (Data r)])).
Proof.
  destruct (Z_lt_le_dec (strings.Index (URL r) "?") 0) as [Hq|Hq];
    [|left; by rewrite (Submit_rejected w r Hq)].
  destruct (completed_fields r) as (Hm & Hu & _ & _ & Hdata & _ & _).
  destruct (Submit_cases w r Hq)
    as [(e & Hb & ->)|[(buf & e & _ & _ & ->)
       |(buf & x & s' & Hb & Hn & He & ->)]].
  - left. unfold ended, serialized. simpl.
    by rewrite (body_fails_no_log _ (init (completed r)) _ _
                  (completed_Headers r) Hb).
  - right. exists (body_logs (Body r)), buf.
    split; [apply body_logs_Forall|]. left.
    unfold ended, requested. cbn [events trace deferred].
    by rewrite app_nil_r, Hm, Hu.
  - right. exists (body_logs (Body r)), buf.
    split; [apply body_logs_Forall|]. right.
    destruct (built_spec w (completed r) (sent_headers r buf) buf)
      as (Hbm & Hbu & Hbb & _).
    destruct (exchanged_tail _ _ _ _ _ He) as (Hd & tail & Ht & Htail).
    exists (built w (completed r) (sent_headers r buf) buf), tail.
    rewrite Hbm, Hbu, Hm, Hu. repeat (split; [done|]). split.
    + unfold ended. cbn [events]. rewrite Ht, Hd. unfold requested.
      cbn [trace deferred]. by rewrite Hm, Hu, <- !app_assoc.
    + destruct Htail as [->|(res & _ & _ & [->|[[msg ->]| ->]])];
        [by left|right; exists (RespBody res)..]; eauto.
      right; right. unfold requested. cbn [req Data set_Headers].
      rewrite Hdata. eauto.
Qed.

(** X2: the method of the receiver is [GET] after the call when the caller
    named none, and is the caller's otherwise; the request given to the
    client has this method. *)
Theorem Submit_method w r :
  Method (final (Submit w r)) = method_sent r ∧
  (∀ rq, EvDo rq ∈ events (Submit w r) → ReqMethod rq = method_sent r).
Proof.
  destruct (completed_fields r) as (Hm & _).
  split.
  - destruct (Z_lt_le_dec (strings.Index (URL r) "?") 0) as [Hq|Hq].
    + destruct (Submit_cases w r Hq)
        as [(e & _ & ->)|[(buf & e & _ & _ & ->)
           |(buf & x & s' & _ & _ & He & ->)]]; try exact Hm.
      unfold ended. cbn [final].
      destruct (exchanged_fields _ _ _ _ _ He) as (-> & _). exact Hm.
    + rewrite (Submit_rejected w r Hq). unfold method_sent. simpl.
      by destruct (String.eqb (Method r) ""), r.
  - intros rq Hin.
    destruct (Submit_Do_built w r rq Hin) as (buf & _ & _ & _ & _ & _ & -> & _).
    destruct (built_spec w (completed r) (sent_headers r buf) buf)
      as (-> & _). exact Hm.
Qed.

(** The URL of the receiver after a call on a URL without [?]. *)
Lemma Submit_final_URL w r :
  strings.Index (URL r) "?" < 0 →
  URL (final (Submit w r)) = URL r +:+ "?" +:+ url.Encode (Query r).
Proof.
  intros Hq. destruct (completed_fields r) as (_ & Hu & _).
  destruct (Submit_cases w r Hq)
    as [(e & _ & ->)|[(buf & e & _ & _ & ->)
       |(buf & x & s' & _ & _ & He & ->)]]; try exact Hu.
  unfold ended. cbn [final].
  destruct (exchanged_fields _ _ _ _ _ He) as (_ & -> & _). exact Hu.
Qed.

(** X3: a receiver cannot be submitted twice.  Whatever the first call
    did, a second call on the receiver it left returns the
    [ReqSyntaxError] of line 130 and makes no call to the outside world:
    the first call has put a [?] into the URL, or has found one there. *)
Theorem Submit_twice w w' r :
  exit (Submit w' (final (Submit w r))) =
    Returned (Some (ReqSyntaxError "URL contains '?' (use Query instead)")) ∧
  events (Submit w' (final (Submit w r))) = [].
Proof.
  assert (Hq' : 0 <= strings.Index (URL (final (Submit w r))) "?").
  { destruct (Z_lt_le_dec (strings.Index (URL r) "?") 0) as [Hq|Hq].
    - rewrite (Submit_final_URL w r Hq). apply Index_found.
    - rewrite (Submit_rejected w r Hq). simpl.
      by destruct (String.eqb (Method r) ""), r. }
  by rewrite (Submit_rejected w' _ Hq').
Qed.

(** X4: the call never changes the query, the body and the context of the
    receiver; and as long as the client is not called, it changes neither
    the recorded response nor the destination. *)
Theorem Submit_frame w r :
  Query (final (Submit w r)) = Query r ∧
  Body (final (Submit w r)) = Body r ∧
  Context (final (Submit w r)) = Context r ∧
  ((∀ rq, EvDo rq ∉ events (Submit w r)) →
   Resp (final (Submit w r)) = Resp r ∧ Data (final (Submit w r)) = Data r).
Proof.
  destruct (completed_fields r) as (_ & _ & Hy & Hb & Hd & Hc & Hr).
  destruct (Z_lt_le_dec (strings.Index (URL r) "?") 0) as [Hq|Hq].
  - destruct (Submit_cases w r Hq)
      as [(e & _ & ->)|[(buf & e & _ & _ & ->)
         |(buf & x & s' & _ & _ & He & ->)]]; try done.
    unfold ended. cbn [final events].
    destruct (exchanged_fields _ _ _ _ _ He) as (_ & _ & -> & _ & -> & -> & _).
    repeat (split; [done|]). intros Hno. exfalso.
    destruct (exchanged_tail _ _ _ _ _ He) as (_ & tail & Ht & _).
    eapply Hno. rewrite Ht. apply elem_of_app; left. apply elem_of_app; right.
    by left.
  - rewrite (Submit_rejected w r Hq). simpl.
    by destruct (String.eqb (Method r) ""), r.
Qed.

(** ** Errors before the client is called *)

(** X5: when the marshalling of the body fails, [Submit] returns the
    error of the marshalling call and makes no call to the outside world;
    the URL of the receiver has the query appended all the same. *)
Theorem Submit_marshal_error w r e :
  strings.Index (URL r) "?" < 0 →
  fails_with (Body r) e →
  exit (Submit w r) = Returned (Some e) ∧
  events (Submit w r) = [] ∧
  URL (final (Submit w r)) = URL r +:+ "?" +:+ url.Encode (Query r).
Proof.
  intros Hq Hf. specialize (Hf (init (completed r)) _ (completed_Headers r)).
  rewrite (Submit_final_URL w r Hq).
  rewrite (Submit_marshal_failed w r _ Hq Hf). unfold ended, serialized.
  cbn [exit events trace deferred].
  by rewrite (body_fails_no_log _ (init (completed r)) _ _
                (completed_Headers r) Hf).
Qed.

Lemma Submit_marshal_error_witness :
  strings.Index (URL (fetch_int "http://127.0.0.1:8080" broken_yaml)) "?" < 0 ∧
  fails_with (Body (fetch_int "http://127.0.0.1:8080" broken_yaml))
    (OtherError "cannot marshal") ∧
  events (Submit unreachable (fetch_int "http://127.0.0.1:8080" broken_yaml))
    = [].
Proof.
  assert (Hq : strings.Index
    (URL (fetch_int "http://127.0.0.1:8080" broken_yaml)) "?" < 0)
    by (vm_compute; reflexivity).
  assert (Hf : fails_with
    (Body (fetch_int "http://127.0.0.1:8080" broken_yaml))
    (OtherError "cannot marshal")) by (intros s h _; reflexivity).
  split; [exact Hq|]. split; [exact Hf|].
  exact (proj1 (proj2 (Submit_marshal_error unreachable _ _ Hq Hf))).
Defined.

(** X6: when [http.NewRequest] refuses the method or the URL, [Submit]
    returns its error; the client is not called, no deadline is set or
    released, and the receiver records no response. *)
Theorem Submit_request_error w r buf e :
  strings.Index (URL r) "?" < 0 →
  serializes_to (Body r) buf →
  NewRequest_err w (method_sent r)
    (URL r +:+ "?" +:+ url.Encode (Query r)) = Some e →
  exit (Submit w r) = Returned (Some e) ∧
  (∀ rq, EvDo rq ∉ events (Submit w r)) ∧
  (EvCancel ∉ events (Submit w r)) ∧
  Resp (final (Submit w r)) = Resp r.
Proof.
  intros Hq Hs Hn.
  destruct (completed_fields r) as (Hm & Hu & _ & _ & _ & _ & Hr).
  specialize (Hs (init (completed r)) _ (completed_Headers r)).
  rewrite <- Hm, <- Hu in Hn.
  rewrite (Submit_request_failed w r buf e Hq Hs Hn).
  unfold ended, requested. cbn [exit events final trace deferred req].
  rewrite app_nil_r. split; [done|].
  assert (Hev : ∀ ev, ev ∈ body_logs (Body r) ++
            [EvNewRequest (Method (completed r)) (URL (completed r)) buf] →
            is_log ev ∨ ∃ m u b, ev = EvNewRequest m u b).
  { intros ev [Hev| ->%list_elem_of_singleton]%elem_of_app; [|eauto 6].
    left. by eapply body_logs_log. }
  split; [|split; [|exact Hr]].
  - intros rq [[? ?]|(? & ? & ? & ?)]%Hev; discriminate.
  - intros [[? ?]|(? & ? & ? & ?)]%Hev; discriminate.
Qed.

Lemma Submit_request_error_witness :
  strings.Index
    (URL (request "GET IT" None None (int_ptr 0))) "?" < 0 ∧
  serializes_to (Body (request "GET IT" None None (int_ptr 0))) "" ∧
  exit (Submit refusing_methods (request "GET IT" None None (int_ptr 0))) =
    Returned (Some (OtherError "net/http: invalid method")).
Proof.
  assert (Hq : strings.Index
    (URL (request "GET IT" None None (int_ptr 0))) "?" < 0)
    by (vm_compute; reflexivity).
  assert (Hs : serializes_to
    (Body (request "GET IT" None None (int_ptr 0))) "")
    by (intros s h _; reflexivity).
  split; [exact Hq|]. split; [exact Hs|].
  exact (proj1 (Submit_request_error refusing_methods
                  (request "GET IT" None None (int_ptr 0)) ""
                  (OtherError "net/http: invalid method") Hq Hs eq_refl)).
Defined.

(** ** The deadline *)

(** A deadline is released only when the caller gave no context. *)
Lemma Submit_cancel w r :
  EvCancel ∈ events (Submit w r) → Context r = None.
Proof.
  intros Hcan.
  destruct (Z_lt_le_dec (strings.Index (URL r) "?") 0) as [Hq|Hq];
    [|rewrite (Submit_rejected w r Hq) in Hcan; by apply elem_of_nil in Hcan].
  destruct (Submit_cases w r Hq)
    as [(e & Hb & Heq)|[(buf & e & _ & _ & Heq)
       |(buf & x & s' & _ & _ & He & Heq)]]; rewrite Heq in Hcan;
    unfold ended in Hcan; cbn [events] in Hcan.
  - unfold serialized in Hcan. cbn [trace deferred] in Hcan.
    rewrite app_nil_r in Hcan. apply body_logs_log in Hcan as [? ?].
    discriminate.
  - unfold requested in Hcan. cbn [trace deferred] in Hcan.
    rewrite app_nil_r in Hcan.
    apply elem_of_app in Hcan as [Hcan|Hcan%list_elem_of_singleton];
      [|discriminate].
    apply body_logs_log in Hcan as [? ?]. discriminate.
  - destruct (exchanged_tail _ _ _ _ _ He) as (Hd & tail & Ht & Htail).
    rewrite Ht, Hd in Hcan. unfold requested in Hcan.
    cbn [trace deferred] in Hcan.
    destruct (Context r); [exfalso|done]. rewrite app_nil_r in Hcan.
    apply elem_of_app in Hcan as [Hcan|Hcan].
    { apply elem_of_app in Hcan as [Hcan|Hcan%list_elem_of_singleton];
        [|discriminate].
      apply body_logs_log in Hcan as [? ?]. discriminate. }
    apply elem_of_cons in Hcan as [Hcan|Hcan]; [discriminate|].
    destruct Htail as [->|(res & _ & _ & [->|[[msg ->]| ->]])];
      repeat (apply elem_of_cons in Hcan as [Hcan|Hcan]; [discriminate|]);
      by apply elem_of_nil in Hcan.
Qed.

(** A duration that fits into 64 bits is not changed by the wrap-around. *)
Lemma wrap_small z : - 2 ^ 63 <= z < 2 ^ 63 → time.wrap z = z.
Proof.
  intros Hz. unfold time.wrap. rewrite Z.mod_small; lia.
Qed.

(** Wrapping a factor first does not change the wrapped product. *)
Lemma wrap_mul a b : time.wrap (a * time.wrap b) = time.wrap (a * b).
Proof.
  unfold time.wrap. f_equal.
  assert (Hm : 2 ^ 64 ≠ 0) by lia.
  revert Hm. generalize (2 ^ 64), (2 ^ 63). intros m h Hm.
  rewrite (Z.mod_eq (b + h) m Hm).
  generalize ((b + h) `div` m). intros q.
  replace (a * (b + h - m * q - h) + h) with (a * b + h + (- a * q) * m)
    by ring.
  apply Z_mod_plus_full.
Qed.

Lemma wrap_wrap z : time.wrap (time.wrap z) = time.wrap z.
Proof.
  transitivity (time.wrap (1 * time.wrap z)); [by rewrite Z.mul_1_l|].
  by rewrite wrap_mul, Z.mul_1_l.
Qed.

(** Line 189 computes the product of a second and [TimeOut] in 64
    bits. *)
Lemma dur_wrap w : dur w = time.wrap (1000000000 * TimeOut w).
Proof.
  unfold dur, time.Duration, time.mul, time.Second.
  by rewrite wrap_wrap, wrap_mul.
Qed.

(** X7: when the caller gives no context, the request given to the client
    carries a deadline of a second times [TimeOut], computed as line 189
    does in 64 bits of nanoseconds: [TimeOut] seconds as long as the
    product fits, the product wrapped around otherwise.  The release of
    the deadline is the last thing the call does, exactly once, however
    the call ends. *)
Theorem Submit_deadline w r rq :
  Context r = None →
  EvDo rq ∈ events (Submit w r) →
  ReqCtx rq = WithTimeout (time.wrap (1000000000 * TimeOut w)) ∧
  (- 2 ^ 63 <= 1000000000 * TimeOut w < 2 ^ 63 →
   ReqCtx rq = WithTimeout (1000000000 * TimeOut w)) ∧
  ∃ before,
    events (Submit w r) = before ++ [EvCancel] ∧ EvCancel ∉ before.
Proof.
  intros Hc Hin.
  destruct (Submit_Do_built w r rq Hin)
    as (buf & x & s' & _ & _ & _ & -> & He & ->).
  destruct (completed_fields r) as (_ & _ & _ & _ & _ & Hcc & _).
  assert (Hctx : ReqCtx (built w (completed r) (sent_headers r buf) buf) =
                 WithTimeout (time.wrap (1000000000 * TimeOut w))).
  { unfold built. rewrite Hcc, Hc. cbn [ReqCtx WithContext].
    by rewrite dur_wrap. }
  split; [exact Hctx|]. split.
  - intros Hfit. by rewrite Hctx, wrap_small.
  - destruct (exchanged_tail _ _ _ _ _ He) as (Hd & tail & Ht & Htail).
    unfold ended. cbn [events]. rewrite Ht, Hd. unfold requested.
    cbn [trace deferred]. rewrite Hc. eexists. split; [reflexivity|].
    intros Hcan.
    apply elem_of_app in Hcan as [Hcan|Hcan].
    { apply elem_of_app in Hcan as [Hcan|Hcan%list_elem_of_singleton];
        [|discriminate].
      apply body_logs_log in Hcan as [? ?]. discriminate. }
    apply elem_of_cons in Hcan as [Hcan|Hcan]; [discriminate|].
    destruct Htail as [->|(res & _ & _ & [->|[[msg ->]| ->]])];
      repeat (apply elem_of_cons in Hcan as [Hcan|Hcan]; [discriminate|]);
      by apply elem_of_nil in Hcan.
Qed.

Lemma Submit_deadline_witness :
  Context (fetch_int "http://127.0.0.1:8080" (BodyString "")) = None ∧
  EvDo (fetch_int_request "")
    ∈ events (Submit unreachable
                (fetch_int "http://127.0.0.1:8080" (BodyString ""))) ∧
  - 2 ^ 63 <= 1000000000 * TimeOut unreachable < 2 ^ 63 ∧
  ReqCtx (fetch_int_request "") =
    WithTimeout (1000000000 * TimeOut unreachable).
Proof.
  assert (Hin : EvDo (fetch_int_request "")
    ∈ events (Submit unreachable
                (fetch_int "http://127.0.0.1:8080" (BodyString ""))))
    by (apply list_elem_of_In; vm_compute; auto).
  assert (Hfit : - 2 ^ 63 <= 1000000000 * TimeOut unreachable < 2 ^ 63)
    by (simpl; lia).
  split; [reflexivity|]. split; [exact Hin|]. split; [exact Hfit|].
  exact (proj1 (proj2 (Submit_deadline unreachable
                  (fetch_int "http://127.0.0.1:8080" (BodyString "")) _
                  eq_refl Hin)) Hfit).
Defined.

(** X8: when the caller gives a context, [Submit] does not hand it to the
    request: the request given to the client has the background context
    [http.NewRequest] gave it, whatever the caller's context is, and no
    deadline is set or released. *)
Theorem Submit_context_unused w r c :
  Context r = Some c →
  (∀ rq, EvDo rq ∈ events (Submit w r) → ReqCtx rq = Background) ∧
  EvCancel ∉ events (Submit w r).
Proof.
  intros Hc.
  destruct (completed_fields r) as (_ & _ & _ & _ & _ & Hcc & _).
  split.
  - intros rq Hin.
    destruct (Submit_Do_built w r rq Hin)
      as (buf & x & s' & _ & _ & _ & -> & _ & _).
    unfold built, add_headers. rewrite Hcc, Hc.
    by destruct (add_headers_spec (map_to_list (sent_headers r buf))
      {| ReqMethod := Method (completed r); ReqURL := URL (completed r);
         ReqBody := buf; Header := []; ReqCtx := Background |})
      as (_ & _ & _ & -> & _).
  - intros Hcan. apply Submit_cancel in Hcan. congruence.
Qed.

Lemma Submit_context_unused_witness :
  Context (request "" None (Some (WithTimeout 5)) (int_ptr 0)) =
    Some (WithTimeout 5) ∧
  EvCancel ∉ events (Submit (server 200 "200 OK" "")
                       (request "" None (Some (WithTimeout 5)) (int_ptr 0))).
Proof.
  split; [reflexivity|].
  exact (proj2 (Submit_context_unused (server 200 "200 OK" "")
                  (request "" None (Some (WithTimeout 5)) (int_ptr 0))
                  (WithTimeout 5) eq_refl)).
Defined.

(** ** Headers *)

(** A header of the request given to the client comes from an entry of
    the header map, stored under the canonical form of its name. *)
Lemma built_Header_inv w r h buf k' v :
  (k', v) ∈ Header (built w r h buf) →
  ∃ k, k' = textproto.CanonicalMIMEHeaderKey k ∧ h !! k = Some v.
Proof.
  rewrite built_Header. intros ([k v0] & Heq & Hkv)%list_elem_of_fmap_1.
  injection Heq as -> ->. exists k. split; [done|].
  by apply elem_of_map_to_list.
Qed.



(** A header the caller names [content-length] is not the entry line 175
    sets: the request carries both values under [Content-Length]. *)
Example Submit_case_variant rq :
  EvDo rq ∈ events (Submit unreachable
    (request "" (Some {["content-length" := "99"]}) None (int_ptr 0))) →
  ("Content-Length", "99") ∈ Header rq ∧
  ("Content-Length", "0") ∈ Header rq.
Proof.
  intros Hin.
  destruct (Submit_Do_built _ _ _ Hin)
    as (buf & _ & _ & _ & Hb & _ & -> & _ & _).
  injection Hb as <-.
  destruct (built_spec unreachable
    (completed (request "" (Some {["content-length" := "99"]}) None
                  (int_ptr 0)))
    (sent_headers (request "" (Some {["content-length" := "99"]}) None
                     (int_ptr 0)) "") "") as (_ & _ & _ & Hh).
  split.
  - by apply (Hh "content-length").
  - by apply (Hh "Content-Length").
Qed.

(** The canonical form of the two names the call sets is the name. *)
Lemma canonical_set_names :
  textproto.CanonicalMIMEHeaderKey "Content-Length" = "Content-Length" ∧
  textproto.CanonicalMIMEHeaderKey "Content-Type" = "Content-Type".
Proof. split; reflexivity. Qed.

(** X10: a body of form values is sent URL-encoded.  On the receiver the
    header named [Content-Type] is set to
    [application/x-www-form-urlencoded], in place of what the caller gave
    under this name.  The request given to the client carries this value
    under [Content-Type]; a second value under [Content-Type] can only
    come from a header the caller gave under another name with the same
    canonical form, such as [content-type]. *)
Theorem Submit_form_body w r v :
  Body r = BodyValues v →
  strings.Index (URL r) "?" < 0 →
  (∃ m u, EvNewRequest m u (url.Encode v) ∈ events (Submit w r)) ∧
  (∃ h, Headers (final (Submit w r)) = Some h ∧
        h !! "Content-Type" = Some "application/x-www-form-urlencoded") ∧
  (∀ rq, EvDo rq ∈ events (Submit w r) →
     ReqBody rq = url.Encode v ∧
     ("Content-Type", "application/x-www-form-urlencoded") ∈ Header rq ∧
     ∀ v', ("Content-Type", v') ∈ Header rq →
       v' = "application/x-www-form-urlencoded" ∨
       ∃ k, k ≠ "Content-Type" ∧
            textproto.CanonicalMIMEHeaderKey k = "Content-Type" ∧
            default ∅ (Headers r) !! k = Some v').
Proof.
  intros Hb Hq.
  assert (Hs : (bodySwitch (Body r) (init (completed r))).1 =
               Next (url.Encode v)).
  { rewrite Hb. destruct serializes_to_cases as (Hv & _).
    apply (Hv v (init (completed r)) _ (completed_Headers r)). }
  assert (Hct : sent_headers r (url.Encode v) !! "Content-Type" =
                Some "application/x-www-form-urlencoded").
  { unfold sent_headers, body_headers. rewrite Hb.
    rewrite lookup_insert_ne by done. apply lookup_insert_eq. }
  destruct (Submit_serialized w r _ Hq Hs) as (Hnew & _ & Hdo).
  split; [exact Hnew|]. split.
  - destruct (Submit_cases w r Hq)
      as [(e & Hb' & _)|[(buf & e & Hb' & _ & ->)
         |(buf & x & s' & Hb' & _ & He & ->)]]; [congruence| |];
      assert (buf = url.Encode v) as -> by congruence.
    + eexists. split; [reflexivity|exact Hct].
    + destruct (exchanged_fields _ _ _ _ _ He) as (_ & _ & _ & Hh & _).
      unfold ended. cbn [final]. rewrite Hh. eexists.
      split; [reflexivity|exact Hct].
  - intros rq Hin. split; [by apply Hdo|].
    destruct (Submit_Do_built w r rq Hin)
      as (buf & x & s' & _ & Hb' & _ & -> & _ & _).
    assert (buf = url.Encode v) as -> by congruence.
    destruct (built_spec w (completed r) (sent_headers r (url.Encode v))
                (url.Encode v)) as (_ & _ & _ & Hh).
    split; [exact (Hh "Content-Type" _ Hct)|].
    intros v' (k & Hk & Hkv)%built_Header_inv.
    unfold sent_headers, body_headers in Hkv. rewrite Hb in Hkv.
    destruct (decide (k = "Content-Length")) as [->|Hcl]; [discriminate Hk|].
    rewrite lookup_insert_ne in Hkv by done.
    destruct (decide (k = "Content-Type")) as [->|Hne].
    + rewrite lookup_insert_eq in Hkv. left. by injection Hkv.
    + rewrite lookup_insert_ne in Hkv by done. right. by exists k.
Qed.

Lemma Submit_form_body_witness :
  Body (fetch_int "http://127.0.0.1:8080" (BodyValues {["a" := ["b c"]]})) =
    BodyValues {["a" := ["b c"]]} ∧
  strings.Index
    (URL (fetch_int "http://127.0.0.1:8080"
            (BodyValues {["a" := ["b c"]]}))) "?" < 0 ∧
  ∃ m u, EvNewRequest m u (url.Encode {["a" := ["b c"]]})
    ∈ events (Submit unreachable
                (fetch_int "http://127.0.0.1:8080"
                   (BodyValues {["a" := ["b c"]]}))).
Proof.
  assert (Hq : strings.Index
    (URL (fetch_int "http://127.0.0.1:8080"
            (BodyValues {["a" := ["b c"]]}))) "?" < 0)
    by (vm_compute; reflexivity).
  split; [reflexivity|]. split; [exact Hq|].
  exact (proj1 (Submit_form_body unreachable
                  (fetch_int "http://127.0.0.1:8080"
                     (BodyValues {["a" := ["b c"]]}))
                  {["a" := ["b c"]]} eq_refl Hq)).
Defined.

(** ** After the client has answered *)

(** A call that reaches the client ends as the second half ends on the
    request built from the completed receiver. *)
Lemma Submit_Do_eq w r rq :
  EvDo rq ∈ events (Submit w r) →
  ∃ buf,
    rq = built w (completed r) (sent_headers r buf) buf ∧
    Submit w r =
      match exchange w rq (requested r buf (release r)) with
      | (Leave x, s') => ended x s'
      | (Next _, s') => ended (Returned None) s'
      end.
Proof.
  intros Hin.
  destruct (Submit_Do_built w r rq Hin)
    as (buf & _ & _ & Hq & Hb & Hn & -> & _ & _).
  exists buf. split; [done|].
  by rewrite Submit_unfold, (outbound_explicit w r Hq), Hb, Hn.
Qed.

Lemma is_2xx_test res :
  is_2xx res ↔
  negb ((200 <=? StatusCode res) && (StatusCode res <? 300)) = false.
Proof.
  unfold is_2xx. rewrite negb_false_iff, andb_true_iff. lia.
Qed.

(** The second half on a response with a status outside [200,300). *)
Lemma exchange_status w rq s res :
  Client_Do w rq = (Some res, None) → ¬ is_2xx res →
  exchange w rq s =
    (Leave (Returned (Some (HTTPError res))), called w rq s).
Proof.
  intros Hdo Hn. rewrite exchange_eq, Hdo.
  cbv beta iota zeta delta [bind when return_ ret].
  destruct (negb _) eqn:E; [done|]. by apply is_2xx_test in E.
Qed.

(** The second half on a response with a status in [200,300). *)
Lemma exchange_read w rq s res :
  Client_Do w rq = (Some res, None) → is_2xx res →
  exchange w rq s =
    match failure (RespBody res) with
    | Some msg =>
        (Leave (Returned (Some (OtherError msg))),
         read (RespBody res) (called w rq s))
    | None =>
        if len (content (RespBody res)) =? 0
        then (Leave (Returned None), read (RespBody res) (called w rq s))
        else
          match dataSwitch w (content (RespBody res))
                  (read (RespBody res) (called w rq s)) with
          | (Next _, s') => (Leave (Returned None), s')
          | (Leave x, s') => (Leave x, s')
          end
    end.
Proof.
  intros Hdo H2. rewrite exchange_eq, Hdo. apply is_2xx_test in H2.
  cbv beta iota zeta delta [bind when return_ ret]. rewrite H2.
  destruct (failure (RespBody res)); [reflexivity|]. simpl.
  destruct (len (content (RespBody res)) =? 0); [reflexivity|].
  by destruct (dataSwitch w _ _) as [[[]|x] s'].
Qed.

(** The destination when the body of the response is looked at. *)
Lemma read_called_Data w r rq buf b ds :
  Data (req (read b (called w rq (requested r buf ds)))) = Data r.
Proof. destruct (completed_fields r) as (_ & _ & _ & _ & Hd & _). exact Hd. Qed.

(** The switch on the destination, for the destinations it decodes
    into. *)
Lemma dataSwitch_decodes w resbytes s :
  decodes (Data (req s)) = true →
  dataSwitch w resbytes s =
    (Leave (ends (yaml_Unmarshal w resbytes (Data (req s))).2),
     {| req := set_Data (yaml_Unmarshal w resbytes (Data (req s))).1 (req s);
        trace := trace s ++ [EvUnmarshal resbytes (Data (req s))];
        deferred := deferred s |}).
Proof.
  destruct s as [r t d]. unfold dataSwitch. monad_unfold. cbn [req].
  destruct (Data r) as [|m|str|b|tg] eqn:E; simpl; try done;
    try (by rewrite E).
  destruct (is_yaml_Unmarshaler tg), (is_io_Writer tg),
    (is_rwxjson_This tg); simpl; try done; by rewrite E.
Qed.

(** The switch on the destination, for a string. *)
Lemma dataSwitch_string w resbytes s old :
  Data (req s) = DataString old →
  dataSwitch w resbytes s =
    (Next tt,
     {| req := set_Data (DataString resbytes) (req s); trace := trace s;
        deferred := deferred s |}).
Proof.
  destruct s as [r t d]. unfold dataSwitch. monad_unfold. cbn [req].
  by intros ->.
Qed.

(** The switch on the destination, for the destinations it leaves
    alone. *)
Lemma dataSwitch_discards w resbytes s :
  discards (Data (req s)) = true →
  ∃ f logs,
    dataSwitch w resbytes s =
      (f, {| req := req s; trace := trace s ++ logs;
             deferred := deferred s |}) ∧
    Forall is_log logs ∧
    (f = Next tt ∨ f = Leave (Returned None)).
Proof.
  destruct s as [r t d]. unfold dataSwitch. monad_unfold. cbn [req].
  assert (Hl : ∀ msg, Forall is_log [EvLog msg])
    by (intros msg; repeat constructor; by eexists).
  destruct (Data r) as [|m|str|b|tg]; simpl; try done.
  - intros _. eexists _, [_]. eauto.
  - destruct (is_yaml_Unmarshaler tg), (is_io_Writer tg),
      (is_rwxjson_This tg); simpl; try done; intros _.
    + exists (Leave (Returned None)), []. rewrite app_nil_r. auto.
    + exists (Leave (Returned None)), []. rewrite app_nil_r. auto.
    + eexists _, [_]. eauto.
Qed.

(** The destinations the switch of line 215 does not hand to the codec
    are the strings and those it leaves alone. *)
Lemma decodes_false d :
  decodes d = false → (∃ old, d = DataString old) ∨ discards d = true.
Proof.
  destruct d as [|m|str|b|tg]; simpl; try done; eauto.
  destruct (is_yaml_Unmarshaler tg), (is_io_Writer tg), (is_rwxjson_This tg);
    simpl; auto; discriminate.
Qed.

(** ** How a call ends once the client has given a response *)

(** C1, amended: when the client gives a response, the response is
    recorded on the receiver.  With a status in [200,300): an error of the
    read of the body is returned as it is; a body that is read and is
    empty, or whose destination is one the switch of line 215 does not
    hand to the codec (a string, bytes, a writer or a [rwxjson.This] that
    is no [yaml.Unmarshaler]), gives no error; any other body that is read
    makes [Submit] end as [yaml.Unmarshal] ends on the body and the
    destination: no error when the codec gives none, the error of the
    codec as it is otherwise (and the panic of a codec that panics).  With
    a status outside [200,300) [Submit] returns the [HTTPError] that wraps
    this response, whose message is the status of the response. *)
Theorem Submit_status w r rq res :
  EvDo rq ∈ events (Submit w r) →
  Client_Do w rq = (Some res, None) →
  Resp (final (Submit w r)) = RespPtr (Some res) ∧
  (is_2xx res →
   (∀ msg, failure (RespBody res) = Some msg →
      exit (Submit w r) = Returned (Some (OtherError msg))) ∧
   (failure (RespBody res) = None →
      (content (RespBody res) = "" ∨ decodes (Data r) = false →
         exit (Submit w r) = Returned None) ∧
      (content (RespBody res) ≠ "" → decodes (Data r) = true →
         exit (Submit w r) =
           ends (yaml_Unmarshal w (content (RespBody res)) (Data r)).2))) ∧
  (¬ is_2xx res →
   exit (Submit w r) = Returned (Some (HTTPError res)) ∧
   Error (HTTPError res) = Status res).
Proof.
  intros Hin Hdo.
  destruct (Submit_Do_eq w r rq Hin) as (buf & _ & ->).
  split; [|split].
  - destruct (exchange_spec w rq (requested r buf (release r))) as
      [res' e Hd|Hd|res' Hd Hn|res' msg Hd H2 Hf|res' Hd H2 Hf Hc
      |res' f s'' Hd H2 Hf Hc Hdec];
      try (destruct (exchanged_req _ _ _ _ _
             (exchanged_decoded w rq _ res' f s'' Hd H2 Hf Hc Hdec))
             as [d Hreq]; unfold ended; cbn [final]; rewrite Hreq);
      unfold ended, read, called; cbn [final req]; by rewrite Hdo.
  - intros H2. rewrite (exchange_read w rq _ res Hdo H2). split.
    + by intros msg ->.
    + intros ->. split.
      * intros [Hc|Hd].
        { apply len_zero in Hc. by rewrite Hc. }
        destruct (len (content (RespBody res)) =? 0); [done|].
        destruct (decodes_false _ Hd) as [[old Hold]|Hdis].
        { by rewrite (dataSwitch_string w _ _ old)
            by (by rewrite read_called_Data). }
        destruct (dataSwitch_discards w (content (RespBody res))
                    (read (RespBody res)
                       (called w rq (requested r buf (release r)))))
          as (f & logs & -> & _ & [-> | ->]); try done.
        by rewrite read_called_Data.
      * intros Hc Hd.
        destruct (len (content (RespBody res)) =? 0) eqn:El;
          [by apply len_zero in El|].
        rewrite dataSwitch_decodes by (by rewrite read_called_Data).
        by rewrite read_called_Data.
  - intros Hn. by rewrite (exchange_status w rq _ res Hdo Hn).
Qed.

Lemma Submit_status_witness :
  EvDo (fetch_int_request "")
    ∈ events (Submit (server 404 "404 Not Found" "")
                (fetch_int "http://127.0.0.1:8080" (BodyString ""))) ∧
  exit (Submit (server 404 "404 Not Found" "")
          (fetch_int "http://127.0.0.1:8080" (BodyString ""))) =
    Returned (Some (HTTPError
      {| Status := "404 Not Found"; StatusCode := 404;
         RespBody := {| content := ""; failure := None |} |})).
Proof.
  assert (Hin : EvDo (fetch_int_request "")
    ∈ events (Submit (server 404 "404 Not Found" "")
                (fetch_int "http://127.0.0.1:8080" (BodyString "")))).
  { apply list_elem_of_In. vm_compute. auto. }
  split; [exact Hin|].
  refine (proj1 (proj2 (proj2
    (Submit_status (server 404 "404 Not Found" "") _ _ _ Hin eq_refl)) _)).
  unfold is_2xx. simpl. lia.
Defined.

(** X11: when the body of a response with a status in [200,300) cannot
    be read, [Submit] returns the error of the read; nothing is decoded
    and the destination is the one the caller gave. *)
Theorem Submit_read_error w r rq res msg :
  EvDo rq ∈ events (Submit w r) →
  Client_Do w rq = (Some res, None) →
  is_2xx res →
  failure (RespBody res) = Some msg →
  exit (Submit w r) = Returned (Some (OtherError msg)) ∧
  Data (final (Submit w r)) = Data r ∧
  (∀ b d, EvUnmarshal b d ∉ events (Submit w r)).
Proof.
  intros Hin Hdo H2 Hf.
  destruct (Submit_Do_eq w r rq Hin) as (buf & _ & ->).
  rewrite (exchange_read w rq _ res Hdo H2), Hf.
  split; [done|]. split; [apply read_called_Data|].
  intros b d Hu. in_events Hu.
Qed.

Lemma Submit_read_error_witness :
  EvDo (fetch_int_request "")
    ∈ events (Submit breaking
                (fetch_int "http://127.0.0.1:8080" (BodyString ""))) ∧
  exit (Submit breaking (fetch_int "http://127.0.0.1:8080" (BodyString "")))
    = Returned (Some (OtherError "unexpected EOF")).
Proof.
  assert (Hin : EvDo (fetch_int_request "")
    ∈ events (Submit breaking
                (fetch_int "http://127.0.0.1:8080" (BodyString ""))))
    by (apply list_elem_of_In; vm_compute; auto).
  split; [exact Hin|].
  refine (proj1 (Submit_read_error breaking _ _ _ "unexpected EOF" Hin
                   eq_refl _ eq_refl)).
  unfold is_2xx. simpl. lia.
Defined.

(** X12: a response with a status outside [200,300) is not looked into:
    its body is not read, nothing is decoded, and the destination is the
    one the caller gave. *)
Theorem Submit_failure_status w r rq res :
  EvDo rq ∈ events (Submit w r) →
  Client_Do w rq = (Some res, None) →
  ¬ is_2xx res →
  Data (final (Submit w r)) = Data r ∧
  (∀ b, EvReadAll b ∉ events (Submit w r)) ∧
  (∀ b d, EvUnmarshal b d ∉ events (Submit w r)).
Proof.
  intros Hin Hdo Hn.
  destruct (Submit_Do_eq w r rq Hin) as (buf & _ & ->).
  rewrite (exchange_status w rq _ res Hdo Hn).
  split; [apply (read_called_Data w r rq buf (RespBody res))|].
  split; [intros b Hu|intros b d Hu]; in_events Hu.
Qed.

Lemma Submit_failure_status_witness :
  EvDo (fetch_int_request "")
    ∈ events (Submit (server 500 "500 Internal Server Error" "7")
                (fetch_int "http://127.0.0.1:8080" (BodyString ""))) ∧
  Data (final (Submit (server 500 "500 Internal Server Error" "7")
                 (fetch_int "http://127.0.0.1:8080" (BodyString "")))) =
    int_ptr 0.
Proof.
  assert (Hin : EvDo (fetch_int_request "")
    ∈ events (Submit (server 500 "500 Internal Server Error" "7")
                (fetch_int "http://127.0.0.1:8080" (BodyString ""))))
    by (apply list_elem_of_In; vm_compute; auto).
  split; [exact Hin|].
  refine (proj1 (Submit_failure_status
                   (server 500 "500 Internal Server Error" "7") _ _ _ Hin
                   eq_refl _)).
  unfold is_2xx. simpl. lia.
Defined.

(** X13: a destination of type string receives the text of the body: when
    a response with a status in [200,300) has a body that is read and is
    not empty, the [Data] field of the receiver is the body as a string,
    [Submit] returns no error and [yaml.Unmarshal] is not called. *)
Theorem Submit_string_destination w r rq res old :
  EvDo rq ∈ events (Submit w r) →
  Client_Do w rq = (Some res, None) →
  is_2xx res →
  failure (RespBody res) = None →
  content (RespBody res) ≠ "" →
  Data r = DataString old →
  exit (Submit w r) = Returned None ∧
  Data (final (Submit w r)) = DataString (content (RespBody res)) ∧
  (∀ b d, EvUnmarshal b d ∉ events (Submit w r)).
Proof.
  intros Hin Hdo H2 Hf Hc Hd.
  destruct (Submit_Do_eq w r rq Hin) as (buf & _ & ->).
  rewrite (exchange_read w rq _ res Hdo H2), Hf.
  destruct (len (content (RespBody res)) =? 0) eqn:El;
    [by apply len_zero in El|].
  rewrite (dataSwitch_string w _ _ old)
    by (by rewrite read_called_Data).
  split; [done|]. split; [done|].
  intros b d Hu. in_events Hu.
Qed.

Lemma Submit_string_destination_witness :
  EvDo (fetch_int_request "")
    ∈ events (Submit (server 200 "200 OK" "hello")
                (request "" None None (DataString ""))) ∧
  Data (final (Submit (server 200 "200 OK" "hello")
                 (request "" None None (DataString "")))) =
    DataString "hello".
Proof.
  assert (Hin : EvDo (fetch_int_request "")
    ∈ events (Submit (server 200 "200 OK" "hello")
                (request "" None None (DataString ""))))
    by (apply list_elem_of_In; vm_compute; auto).
  split; [exact Hin|].
  refine (proj1 (proj2 (Submit_string_destination
                   (server 200 "200 OK" "hello")
                   (request "" None None (DataString "")) _ _ "" Hin
                   eq_refl _ eq_refl _ eq_refl))).
  - unfold is_2xx. simpl. lia.
  - discriminate.
Defined.

(** X14: for a destination of bytes, and for a writer or a [rwxjson.This]
    that is no [yaml.Unmarshaler], the body of a response with a status in
    [200,300) is read and dropped: [Submit] returns no error, nothing is
    decoded or written, and the destination is the one the caller gave. *)
Theorem Submit_body_dropped w r rq res :
  EvDo rq ∈ events (Submit w r) →
  Client_Do w rq = (Some res, None) →
  is_2xx res →
  failure (RespBody res) = None →
  discards (Data r) = true →
  exit (Submit w r) = Returned None ∧
  Data (final (Submit w r)) = Data r ∧
  (∀ b d, EvUnmarshal b d ∉ events (Submit w r)).
Proof.
  intros Hin Hdo H2 Hf Hd.
  destruct (Submit_Do_eq w r rq Hin) as (buf & _ & ->).
  rewrite (exchange_read w rq _ res Hdo H2), Hf.
  destruct (len (content (RespBody res)) =? 0).
  { split; [done|]. split; [apply read_called_Data|].
    intros b d Hu. in_events Hu. }
  destruct (dataSwitch_discards w (content (RespBody res))
              (read (RespBody res) (called w rq (requested r buf (release r)))))
    as (f & logs & -> & Hlogs & Hfl).
  { by rewrite read_called_Data. }
  assert (Hno : ∀ b d, EvUnmarshal b d ∉ logs).
  { intros b d Hu. rewrite Forall_forall in Hlogs.
    destruct (Hlogs _ Hu). discriminate. }
  destruct Hfl as [-> | ->];
    (split; [done|]; split; [apply read_called_Data|]);
    intros b d Hu; unfold ended in Hu; cbn [events trace deferred] in Hu;
    apply elem_of_app in Hu as [Hu|Hu];
    try (apply elem_of_app in Hu as [Hu|Hu]; [|by apply Hno in Hu]);
    in_events Hu.
Qed.

Lemma Submit_body_dropped_witness :
  EvDo (fetch_int_request "")
    ∈ events (Submit (server 200 "200 OK" "hello")
                (request "" None None a_writer)) ∧
  Data (final (Submit (server 200 "200 OK" "hello")
                 (request "" None None a_writer))) = a_writer.
Proof.
  assert (Hin : EvDo (fetch_int_request "")
    ∈ events (Submit (server 200 "200 OK" "hello")
                (request "" None None a_writer)))
    by (apply list_elem_of_In; vm_compute; auto).
  split; [exact Hin|].
  refine (proj1 (proj2 (Submit_body_dropped
                   (server 200 "200 OK" "hello")
                   (request "" None None a_writer) _ _ Hin
                   eq_refl _ eq_refl eq_refl))).
  unfold is_2xx. simpl. lia.
Defined.

(** X15: for a destination that is nil, a map, a [yaml.Unmarshaler], or
    neither a writer nor a [rwxjson.This], the body of a response with a
    status in [200,300) that is read and is not empty is handed to
    [yaml.Unmarshal] exactly once, whole, with the destination the caller
    gave, as the last call before the release of the deadline.  [Submit]
    ends as the codec ends: it returns the error the codec returns, or
    nil, and it is unwound by the panic of a codec that panics, as
    [yaml.Unmarshal] does on destinations it cannot write through.  The
    destination is as the codec left it. *)
Theorem Submit_decodes w r rq res :
  EvDo rq ∈ events (Submit w r) →
  Client_Do w rq = (Some res, None) →
  is_2xx res →
  failure (RespBody res) = None →
  content (RespBody res) ≠ "" →
  decodes (Data r) = true →
  exit (Submit w r) =
    ends (yaml_Unmarshal w (content (RespBody res)) (Data r)).2 ∧
  Data (final (Submit w r)) =
    (yaml_Unmarshal w (content (RespBody res)) (Data r)).1 ∧
  ∃ before,
    events (Submit w r) =
      before ++ EvUnmarshal (content (RespBody res)) (Data r) :: release r ∧
    ∀ b d, EvUnmarshal b d ∉ before.
Proof.
  intros Hin Hdo H2 Hf Hc Hd.
  destruct (Submit_Do_eq w r rq Hin) as (buf & _ & ->).
  rewrite (exchange_read w rq _ res Hdo H2), Hf.
  destruct (len (content (RespBody res)) =? 0) eqn:El;
    [by apply len_zero in El|].
  rewrite dataSwitch_decodes by (by rewrite read_called_Data).
  rewrite read_called_Data. split; [done|]. split; [done|].
  exists (body_logs (Body r) ++
          [EvNewRequest (Method (completed r)) (URL (completed r)) buf;
           EvDo rq; EvReadAll (RespBody res)]).
  split.
  - unfold ended, read, called, requested. cbn [events trace deferred].
    by rewrite <- !app_assoc.
  - intros b d Hu. in_events Hu.
Qed.

Lemma Submit_decodes_witness :
  EvDo (fetch_int_request "")
    ∈ events (Submit (server 200 "200 OK" "20220322075441")
                (fetch_int "http://127.0.0.1:8080" (BodyString ""))) ∧
  Data (final (Submit (server 200 "200 OK" "20220322075441")
                 (fetch_int "http://127.0.0.1:8080" (BodyString "")))) =
    int_ptr 20220322075441.
Proof.
  assert (Hin : EvDo (fetch_int_request "")
    ∈ events (Submit (server 200 "200 OK" "20220322075441")
                (fetch_int "http://127.0.0.1:8080" (BodyString ""))))
    by (apply list_elem_of_In; vm_compute; auto).
  split; [exact Hin|].
  refine (proj1 (proj2 (Submit_decodes
                   (server 200 "200 OK" "20220322075441")
                   (fetch_int "http://127.0.0.1:8080" (BodyString "")) _ _
                   Hin eq_refl _ eq_refl _ eq_refl))).
  - unfold is_2xx. simpl. lia.
  - discriminate.
Defined.

(** X16: no statement of [Submit] itself panics as long as the client
    keeps to its contract and gives a response or an error. *)
Theorem Submit_no_panic w r :
  (∀ rq, Client_Do w rq ≠ (None, None)) →
  ∀ msg, exit (Submit w r) ≠ Panicked msg.
Proof.
  intros Hdo msg.
  destruct (Z_lt_le_dec (strings.Index (URL r) "?") 0) as [Hq|Hq];
    [|by rewrite (Submit_rejected w r Hq)].
  destruct (Submit_cases w r Hq)
    as [(e & _ & ->)|[(buf & e & _ & _ & ->)
       |(buf & x & s' & _ & _ & He & ->)]]; try done.
  unfold ended. cbn [exit]. intros ->.
  inversion He as [| Hnil | | | |? f ? _ _ _ _ Hdec Hx]; subst.
  - by eapply Hdo.
  - destruct f as [[]|x]; [discriminate|]. subst x.
    inversion Hdec as [[Hx Hs']| | |].
    by destruct (yaml_Unmarshal w _ _).2.
Qed.

Lemma Submit_no_panic_witness :
  (∀ rq, Client_Do unreachable rq ≠ (None, None)) ∧
  exit (Submit unreachable (fetch_int "http://127.0.0.1:8080" BodyNil)) ≠
    Panicked "nil pointer dereference".
Proof.
  assert (H : ∀ rq, Client_Do unreachable rq ≠ (None, None))
    by (intros rq; discriminate).
  split; [exact H|].
  exact (Submit_no_panic unreachable _ H "nil pointer dereference").
Defined.

(** ** The one separator of the URL *)

Lemma mentions_app c s1 s2 :
  mentions c (s1 +:+ s2) = mentions c s1 || mentions c s2.
Proof.
  induction s1 as [|x s1 IH]; [reflexivity|].
  change (Ascii.eqb x c || mentions c (s1 +:+ s2) =
          Ascii.eqb x c || mentions c s1 || mentions c s2).
  by rewrite IH, orb_assoc.
Qed.

Lemma mentions_split c s :
  mentions c s = true → ∃ a b, s = a +:+ String c b.
Proof.
  induction s as [|x s IH]; [discriminate|]. simpl.
  destruct (Ascii.eqb x c) eqn:E.
  - apply Ascii.eqb_eq in E as ->. intros _. by exists "", s.
  - intros (a & b & ->)%IH. by exists (String x a), b.
Qed.

(** A string that passes the check of line 129 has no [?]. *)
Lemma Index_mentions s :
  strings.Index s "?" < 0 → mentions "?" s = false.
Proof.
  intros Hq. destruct (mentions "?" s) eqn:E; [|done].
  apply mentions_split in E. apply Index_query_separator in E. lia.
Qed.

(** [url.QueryEscape] escapes every [?]. *)
Lemma QueryEscape_no_separator s :
  mentions "?" (url.QueryEscape s) = false.
Proof.
  induction s as [|c s IH]; [reflexivity|].
  destruct c as [[] [] [] [] [] [] [] []]; exact IH.
Qed.

Lemma encode_key_no_separator k vs buf :
  mentions "?" k = false → mentions "?" buf = false →
  mentions "?" (url.encode_key k vs buf) = false.
Proof.
  intros Hk. revert buf. induction vs as [|v vs IH]; intros buf Hb; [done|].
  simpl. apply IH.
  rewrite !mentions_app, Hk, QueryEscape_no_separator.
  destruct (0 <? len buf); rewrite ?mentions_app, Hb; reflexivity.
Qed.

(** The encoded query has no [?]. *)
Lemma Encode_no_separator (v : url.Values) :
  mentions "?" (url.Encode v) = false.
Proof.
  unfold url.Encode.
  assert (H : ∀ keys buf, mentions "?" buf = false →
    mentions "?" (fold_left
      (λ buf k, url.encode_key (url.QueryEscape k) (default [] (v !! k)) buf)
      keys buf) = false).
  { induction keys as [|k keys IH]; intros buf Hb; [done|].
    simpl. apply IH. apply encode_key_no_separator; [|done].
    apply QueryEscape_no_separator. }
  by apply H.
Qed.

(** A string with one [c] splits at [c] in one way. *)
Lemma split_unique c x y a b :
  mentions c x = false → mentions c y = false →
  x +:+ String c y = a +:+ String c b → a = x ∧ b = y.
Proof.
  revert a. induction x as [|x0 x IH]; intros a Hx Hy Heq.
  - destruct a as [|a0 a].
    + by injection Heq as ->.
    + change (String c y = String a0 (a +:+ String c b)) in Heq.
      injection Heq as -> ->.
      rewrite mentions_app in Hy. simpl in Hy.
      rewrite Ascii.eqb_refl, orb_true_r in Hy. discriminate.
  - simpl in Hx. apply orb_false_iff in Hx as [Hx0 Hx].
    destruct a as [|a0 a].
    + change (String x0 (x +:+ String c y) = String c b) in Heq.
      injection Heq as -> _. rewrite Ascii.eqb_refl in Hx0. discriminate.
    + change (String x0 (x +:+ String c y) =
              String a0 (a +:+ String c b)) in Heq.
      injection Heq as -> Heq. destruct (IH a Hx Hy Heq) as [-> ->]. done.
Qed.

(** X17: after a call on a URL without [?], the URL of the receiver has
    exactly one [?], the one line 132 appends: the caller's URL is before
    it and the encoded query after it, and a [?] in a query parameter is
    escaped. *)
Theorem Submit_one_separator w r a b :
  strings.Index (URL r) "?" < 0 →
  URL (final (Submit w r)) = a +:+ "?" +:+ b →
  a = URL r ∧ b = url.Encode (Query r).
Proof.
  intros Hq Hu. rewrite (Submit_final_URL w r Hq) in Hu.
  apply (split_unique "?"); [by apply Index_mentions| |exact Hu].
  apply Encode_no_separator.
Qed.

Lemma Submit_one_separator_witness :
  strings.Index (URL (fetch_int "http://h/p" BodyNil)) "?" < 0 ∧
  URL (final (Submit unreachable (fetch_int "http://h/p" BodyNil))) =
    "http://h/p" +:+ "?" +:+ "" ∧
  "http://h/p" = URL (fetch_int "http://h/p" BodyNil).
Proof.
  assert (Hq : strings.Index
    (URL (fetch_int "http://h/p" BodyNil)) "?" < 0)
    by (vm_compute; reflexivity).
  assert (Hu : URL (final
    (Submit unreachable (fetch_int "http://h/p" BodyNil))) =
    "http://h/p" +:+ "?" +:+ "") by (vm_compute; reflexivity).
  split; [exact Hq|]. split; [exact Hu|].
  exact (proj1 (Submit_one_separator unreachable _ _ _ Hq Hu)).
Defined.
